(** * HashCat-GUI: the core of the hashcat front end, embedded in Rocq

    The development follows [src/core/hashcat.py] (the [HashcatRunner]
    class: command builder, process controller, status parser, results
    reader), [src/core/config.py] ([Config.get_path] and the validators
    of [ConfigModel]) and [src/core/server.py] ([PotfileMonitor],
    [validate_hashcat_args], [run_hashcat] up to the spawn,
    [clear_potfile], [load_hash_types]).

    Python values are embedded as follows: [str] is [string], a [list] of
    tokens is [list string], a [dict] from [str] to [str] is
    [gmap string string], an [int] is [Z], a [float] is [pyfloat] (exact
    rationals for the finite values), [None] is [None], and a raised
    exception is the [Raise] branch of [result]. A text is a sequence of
    characters with code points below 256, and a file holds one byte for
    each, so that sizes and offsets in bytes are lengths in characters. *)

From Stdlib Require Import ZArith QArith_base Qreduction Qround Ascii String DecimalString Lia.
From stdpp Require Import gmap strings list.

Local Open Scope Z_scope.
Local Open Scope nat_scope.

(** ** Python's [str] methods used by the sources *)

Module PyStr.

Definition LF : ascii := "010"%char.
Definition CR : ascii := "013"%char.
Definition TAB : ascii := "009"%char.

(** [str.isspace] on one character; characters are code points below 256. *)
Definition is_space (c : ascii) : bool :=
  match c with
  | "009" | "010" | "011" | "012" | "013"
  | "028" | "029" | "030" | "031" | " " | "133" | "160" => true
  | _ => false
  end%char.

(** [s.lstrip()] *)
Fixpoint lstrip (s : string) : string :=
  match s with
  | String c s' => if is_space c then lstrip s' else s
  | EmptyString => EmptyString
  end.

(** [s.rstrip()] *)
Fixpoint rstrip (s : string) : string :=
  match s with
  | String c s' =>
      match rstrip s' with
      | EmptyString => if is_space c then EmptyString else String c EmptyString
      | r => String c r
      end
  | EmptyString => EmptyString
  end.

(** [s.strip()] *)
Definition strip (s : string) : string := rstrip (lstrip s).

(** [s.startswith(p)] *)
Definition startswith (p s : string) : bool := String.prefix p s.

(** [sub in s] *)
Fixpoint contains (sub s : string) : bool :=
  String.prefix sub s ||
  match s with
  | String _ s' => contains sub s'
  | EmptyString => false
  end.

(** [s.split(sep)] for a one-character separator: never the empty list. *)
Fixpoint split (sep : ascii) (s : string) : list string :=
  match s with
  | EmptyString => [EmptyString]
  | String c s' =>
      if Ascii.eqb c sep then EmptyString :: split sep s'
      else match split sep s' with
           | h :: t => String c h :: t
           | [] => [String c EmptyString]
           end
  end.

(** Text-mode decoding with universal newlines (the default of [open]):
    CR LF and a lone CR both read as LF. *)
Fixpoint universal_newlines (s : string) : string :=
  match s with
  | EmptyString => EmptyString
  | String c s' =>
      if Ascii.eqb c CR then
        match s' with
        | String c' s'' =>
            if Ascii.eqb c' LF then String LF (universal_newlines s'')
            else String LF (universal_newlines s')
        | EmptyString => String LF EmptyString
        end
      else String c (universal_newlines s')
  end.

(** The lines of a decoded text, each keeping its terminating LF; a last
    line without LF is a line too. This is what [f.readlines()] and
    [for line in f] produce. *)
Fixpoint keepends (s : string) : list string :=
  match s with
  | EmptyString => []
  | String c s' =>
      if Ascii.eqb c LF then String LF EmptyString :: keepends s'
      else match keepends s' with
           | h :: t => String c h :: t
           | [] => [String c EmptyString]
           end
  end.

(** [s[n:]] *)
Fixpoint drop (n : nat) (s : string) : string :=
  match n, s with
  | O, _ => s
  | S n', String _ s' => drop n' s'
  | S _, EmptyString => EmptyString
  end.

End PyStr.

(** ** Exceptions and results *)

(** The exception classes the sources raise, catch or let through. *)
Inductive exn_class :=
| HashcatError | CommandError | ExecutionError
| ValueError | IndexError | KeyError | OverflowError | NameError
| OSError | FileNotFoundError | PermissionError
| SubprocessError | TimeoutExpired.

(** What an exception carries: a literal message, an f-string that
    formats the exception it was built from, or the interpreter's own text. *)
Inductive exn :=
| Exn (cls : exn_class) (msg : string)
| ExnFrom (cls : exn_class) (prefix : string) (cause : exn)
| Builtin (cls : exn_class).

Definition class_of (e : exn) : exn_class :=
  match e with
  | Exn c _ | ExnFrom c _ _ | Builtin c => c
  end.

(** [issubclass sub sup], for the classes above. [CommandError] and
    [ExecutionError] derive from [HashcatError] (hashcat.py, lines 25-35);
    [FileNotFoundError] and [PermissionError] derive from [OSError];
    [TimeoutExpired] derives from [subprocess.SubprocessError]. *)
Definition issubclass (sub sup : exn_class) : bool :=
  match sub, sup with
  | HashcatError, HashcatError
  | CommandError, (CommandError | HashcatError)
  | ExecutionError, (ExecutionError | HashcatError)
  | ValueError, ValueError
  | IndexError, IndexError
  | KeyError, KeyError
  | OverflowError, OverflowError
  | NameError, NameError
  | OSError, OSError
  | FileNotFoundError, (FileNotFoundError | OSError)
  | PermissionError, (PermissionError | OSError)
  | SubprocessError, SubprocessError
  | TimeoutExpired, (TimeoutExpired | SubprocessError) => true
  | _, _ => false
  end.

(** [isinstance(e, (c1, c2, ...))] *)
Definition isinstance (e : exn) (cs : list exn_class) : bool :=
  existsb (issubclass (class_of e)) cs.

Inductive result (A : Type) :=
| Ok (a : A)
| Raise (e : exn).
Arguments Ok {A} a.
Arguments Raise {A} e.

#[global] Instance result_ret : MRet result := fun A a => Ok a.

#[global] Instance result_bind : MBind result := fun A B k r =>
  match r with
  | Ok a => k a
  | Raise e => Raise e
  end.

(** [try: body  except classes as e: handler e] *)
Definition try_except {A} (body : result A) (cs : list exn_class)
    (handler : exn -> result A) : result A :=
  match body with
  | Ok a => Ok a
  | Raise e => if isinstance e cs then handler e else Raise e
  end.

(** [l[i]] on a list: [IndexError] out of range. *)
Definition getitem {A} (l : list A) (i : nat) : result A :=
  match l !! i with
  | Some a => Ok a
  | None => Raise (Builtin IndexError)
  end.

(** ** Numbers: [int(s)], [float(s)], [str(n)] *)

(** The value of a decimal digit. *)
Definition digit_of (c : ascii) : option Z := Z.of_nat <$> Ascii.is_nat c.

(** The rest of a digit part after its first digit: digits, each possibly
    preceded by one underscore. Returns the digits read and what is left. *)
Fixpoint digits_tail (s : string) : list Z * string :=
  match s with
  | EmptyString => ([], s)
  | String c s' =>
      match digit_of c with
      | Some d => let '(ds, r) := digits_tail s' in (d :: ds, r)
      | None =>
          if Ascii.eqb c "_" then
            match s' with
            | String c' s'' =>
                match digit_of c' with
                | Some d => let '(ds, r) := digits_tail s'' in (d :: ds, r)
                | None => ([], s)
                end
            | EmptyString => ([], s)
            end
          else ([], s)
      end
  end.

(** A digit part: at least one digit. *)
Definition digitpart (s : string) : option (list Z * string) :=
  match s with
  | String c s' =>
      match digit_of c with
      | Some d => let '(ds, r) := digits_tail s' in Some (d :: ds, r)
      | None => None
      end
  | EmptyString => None
  end.

Definition number_of (ds : list Z) : Z :=
  fold_left (fun acc d => (10 * acc + d)%Z) ds 0%Z.

(** An optional sign: [true] for minus. *)
Definition sign (s : string) : bool * string :=
  match s with
  | String "-" s' => (true, s')
  | String "+" s' => (false, s')
  | _ => (false, s)
  end.

Definition signed (neg : bool) (z : Z) : Z := if neg then (- z)%Z else z.

(** [int(s)] for a [str] argument (base 10). *)
Definition int (s : string) : result Z :=
  let '(neg, s1) := sign (PyStr.strip s) in
  match digitpart s1 with
  | Some (ds, EmptyString) => Ok (signed neg (number_of ds))
  | _ => Raise (Builtin ValueError)
  end.

(** A Python [float]. A finite value is kept as the exact rational its
    literal denotes, in lowest terms; CPython rounds that rational to the
    nearest binary64. *)
Inductive pyfloat :=
| Finite (q : Q)
| Infinity (neg : bool)
| NaN.

Definition float_of_Z (z : Z) : pyfloat := Finite (z # 1).

(** mantissa * 10^e *)
Definition scale10 (m e : Z) : Q :=
  match e with
  | Zneg p => Qred (m # (10 ^ p)%positive)
  | _ => ((m * 10 ^ e)%Z # 1)
  end.

(** [(e|E) [sign] digitpart], or nothing. *)
Definition exponent (s : string) : option (Z * string) :=
  match s with
  | String c s' =>
      if Ascii.eqb c "e" || Ascii.eqb c "E" then
        let '(neg, s1) := sign s' in
        match digitpart s1 with
        | Some (ds, r) => Some (signed neg (number_of ds), r)
        | None => None
        end
      else Some (0%Z, s)
  | EmptyString => Some (0%Z, s)
  end.

(** The decimal forms: [digitpart [. [digitpart]] [exponent]] and
    [. digitpart [exponent]]. *)
Definition decimal (s : string) : option Q :=
  let finish (ip fp : list Z) (r : string) :=
    match exponent r with
    | Some (e, EmptyString) =>
        Some (scale10 (number_of (ip ++ fp)) (e - Z.of_nat (length fp)))
    | _ => None
    end in
  match digitpart s with
  | Some (ip, String "." r) =>
      match digitpart r with
      | Some (fp, r') => finish ip fp r'
      | None => finish ip [] r
      end
  | Some (ip, r) => finish ip [] r
  | None =>
      match s with
      | String "." r =>
          match digitpart r with
          | Some (fp, r') => finish [] fp r'
          | None => None
          end
      | _ => None
      end
  end.

Definition lower (c : ascii) : ascii :=
  let n := nat_of_ascii c in
  if (65 <=? n) && (n <=? 90) then ascii_of_nat (n + 32) else c.

Fixpoint lowercase (s : string) : string :=
  match s with
  | EmptyString => EmptyString
  | String c s' => String (lower c) (lowercase s')
  end.

(** [float(s)] for a [str] argument. *)
Definition float (s : string) : result pyfloat :=
  let '(neg, s1) := sign (PyStr.strip s) in
  let l := lowercase s1 in
  if String.eqb l "inf" || String.eqb l "infinity" then Ok (Infinity neg)
  else if String.eqb l "nan" then Ok NaN
  else match decimal s1 with
       | Some q => Ok (Finite (if neg then Qred (Qopp q) else q))
       | None => Raise (Builtin ValueError)
       end.

(** [str(n)] for an [int]. *)
Definition str_of_int (n : Z) : string := NilZero.string_of_int (Z.to_int n).

(** Truthiness of an optional [str] argument: [None] and the empty string
    are false. *)
Definition truthy (o : option string) : bool :=
  match o with
  | Some (String _ _) => true
  | _ => false
  end.

(** ** The host the program runs on *)

(** What the sources take from the interpreter and the operating system
    without defining it: the clock, and how a configured path string
    becomes a [pathlib.Path] and prints back. *)
Record Host := {
  datetime : Type;
  (** [datetime.now()] *)
  now : datetime;
  (** [datetime.fromtimestamp(t)], which raises on values out of range *)
  fromtimestamp : pyfloat -> result datetime;
  (** [str(Path(os.path.expanduser(s)))] *)
  as_path : string -> string;
}.

(** The regular files of the host, by path, with their content. *)
Abbreviation filesystem := (gmap string string).

(** ** config.py: [Config.get_path] *)

Record Config := { paths : gmap string string }.

Definition get_path (host : Host) (self : Config) (path_type : string)
    : result string :=
  match paths self !! path_type with
  | None => Raise (Exn KeyError ("Unknown path type: " +:+ path_type))
  | Some p => Ok (as_path host p)
  end.

(** ** subprocess.Popen *)

(** The child process as the kernel sees it. *)
Inductive child_state := Alive | Exited (code : Z).

(** A [Popen] object: the command it runs, the cached [returncode]
    ([None] until the exit status has been collected) and the child. *)
Record Popen := mkPopen {
  args : list string;
  returncode : option Z;
  child : child_state;
}.

Inductive signal := SIGTERM | SIGKILL.

(** What the controller does to the child, in order. *)
Inductive effect :=
| Sent (s : signal)
| Waited (timeout : nat).

(** The part of the world a controller interacts with: [future] tells, at
    each later look at the child, whether it has exited by itself since the
    previous look (and with which code); [log] records the signals sent
    and the bounded waits made so far. *)
Record World := mkWorld {
  future : list (option Z);
  log : list effect;
}.

Definition record (e : effect) (w : World) : World :=
  mkWorld (future w) (log w ++ [e]).

(** One look at the child: it may have exited in the meantime. *)
Definition observe (w : World) (p : Popen) : World * Popen :=
  match future w with
  | [] => (w, p)
  | o :: fut =>
      (mkWorld fut (log w),
       match child p, o with
       | Alive, Some c => mkPopen (args p) (returncode p) (Exited c)
       | _, _ => p
       end)
  end.

(** [p.poll()] *)
Definition poll (w : World) (p : Popen) : World * Popen * option Z :=
  match returncode p with
  | Some c => (w, p, Some c)
  | None =>
      let '(w, p) := observe w p in
      match child p with
      | Exited c => (w, mkPopen (args p) (Some c) (child p), Some c)
      | Alive => (w, p, None)
      end
  end.

(** [p.send_signal(sig)]: nothing is sent to a child that has exited; a
    child that is gone by the time of the signal is not an error. SIGKILL
    cannot be caught: the child is dead once it is sent (its status is
    minus the signal number). *)
Definition send_signal (sig : signal) (w : World) (p : Popen) : World * Popen :=
  let '(w, p, rc) := poll w p in
  match rc with
  | Some _ => (w, p)
  | None =>
      (record (Sent sig) w,
       match sig with
       | SIGKILL => mkPopen (args p) (returncode p) (Exited (-9))
       | SIGTERM => p
       end)
  end.

Definition terminate := send_signal SIGTERM.
Definition kill := send_signal SIGKILL.

(** [p.wait(timeout=t)] *)
Definition wait (timeout : nat) (w : World) (p : Popen)
    : World * Popen * result Z :=
  match returncode p with
  | Some c => (w, p, Ok c)
  | None =>
      let '(w, p) := observe (record (Waited timeout) w) p in
      match child p with
      | Exited c => (w, mkPopen (args p) (Some c) (child p), Ok c)
      | Alive => (w, p, Raise (Builtin TimeoutExpired))
      end
  end.

(** ** hashcat.py: [HashcatStatus] and [HashcatRunner] *)

Record HashcatStatus (host : Host) := mkStatus {
  status : string;
  progress : pyfloat;
  speed : string;
  estimated_completion : string;
  recovered_hashes : Z;
  total_hashes : Z;
  time_started : datetime host;
}.
Arguments mkStatus {host}.
Arguments status {host}.
Arguments progress {host}.
Arguments speed {host}.
Arguments estimated_completion {host}.
Arguments recovered_hashes {host}.
Arguments total_hashes {host}.
Arguments time_started {host}.

Record HashcatRunner := mkRunner {
  config : Config;
  process : option Popen;
  command : list string;
}.

Definition set_command (self : HashcatRunner) (cmd : list string) :=
  mkRunner (config self) (process self) cmd.

Definition set_process (self : HashcatRunner) (p : Popen) :=
  mkRunner (config self) (Some p) (command self).

Section Runner.
Context (host : Host).

(** The tokens every command starts with (lines 62-72). *)
Definition base_command (self : HashcatRunner) (hash_type : Z)
    (hash_file : string) (attack_mode : Z) : result (list string) :=
  hashcat ← get_path host (config self) "hashcat";
  potfile ← get_path host (config self) "potfile";
  mret [hashcat; "--status"; "--status-timer=1"; "--machine-readable";
        "--quiet"; "--potfile-path"; potfile;
        "-m"; str_of_int hash_type; "-a"; str_of_int attack_mode;
        hash_file].

(** The attack-specific tokens (lines 75-84). The optional arguments are
    tested for truthiness: [None] and the empty string both count as
    missing. *)
Definition attack_parameters (cmd : list string) (attack_mode : Z)
    (wordlist rule mask : option string) : result (list string) :=
  if (attack_mode =? 0)%Z then
    if negb (truthy wordlist) then
      Raise (Exn CommandError "Wordlist required for attack mode 0")
    else
      let cmd := cmd ++ [default EmptyString wordlist] in
      if truthy rule then mret (cmd ++ ["-r"; default EmptyString rule])
      else mret cmd
  else if (attack_mode =? 3)%Z then
    if negb (truthy mask) then
      Raise (Exn CommandError "Mask required for attack mode 3")
    else mret (cmd ++ [default EmptyString mask])
  else mret cmd.

(** [HashcatRunner.build_command]: the command is stored in the runner
    only when the whole body ran without raising. *)
Definition build_command (self : HashcatRunner) (hash_type : Z)
    (hash_file : string) (attack_mode : Z)
    (wordlist rule mask : option string)
    : HashcatRunner * result (list string) :=
  match cmd ← base_command self hash_type hash_file attack_mode;
        attack_parameters cmd attack_mode wordlist rule mask with
  | Ok cmd => (set_command self cmd, Ok cmd)
  | Raise e => (self, Raise e)
  end.

(** [HashcatRunner.start]. [popen] is what [subprocess.Popen(cmd, ...)]
    does on this host for a given command: a new process object, or the
    exception the spawn raises. *)
Definition start (popen : list string -> result Popen)
    (self : HashcatRunner) : HashcatRunner * result unit :=
  match command self with
  | [] =>
      (self, Raise (Exn CommandError
                      "Command not built. Call build_command first."))
  | _ =>
      match try_except (popen (command self)) [SubprocessError]
              (fun e => Raise (ExnFrom ExecutionError
                                 "Failed to start hashcat: " e)) with
      | Ok p => (set_process self p, Ok tt)
      | Raise e => (self, Raise e)
      end
  end.

(** [HashcatRunner.stop] *)
Definition stop (w : World) (self : HashcatRunner)
    : World * HashcatRunner * result unit :=
  match process self with
  | None => (w, self, Ok tt)
  | Some p =>
      let '(w, p, rc) := poll w p in
      match rc with
      | Some _ => (w, set_process self p, Ok tt)
      | None =>
          let '(w, p) := terminate w p in
          let '(w, p, r) := wait 5 w p in
          match r with
          | Ok _ => (w, set_process self p, Ok tt)
          | Raise e =>
              if isinstance e [TimeoutExpired] then
                let '(w, p) := kill w p in (w, set_process self p, Ok tt)
              else (w, set_process self p, Raise e)
          end
      end
  end.

(** [HashcatRunner._parse_status] *)
Definition _parse_status (status_line : string)
    : result (HashcatStatus host) :=
  match status_line with
  | EmptyString =>
      Ok (mkStatus "Running" (float_of_Z 0) "0 H/s" EmptyString 0%Z 0%Z
            (now host))
  | _ =>
      try_except
        (let parts := PyStr.split PyStr.TAB status_line in
         st ← getitem parts 1;
         s2 ← getitem parts 2; pr ← float s2;
         sp ← getitem parts 3;
         ec ← getitem parts 4;
         s5 ← getitem parts 5; rh ← int s5;
         s6 ← getitem parts 6; th ← int s6;
         s7 ← getitem parts 7; t ← float s7; ts ← fromtimestamp host t;
         mret (mkStatus st pr (sp +:+ " H/s") ec rh th ts))
        [IndexError; ValueError]
        (fun e => Raise (ExnFrom HashcatError "Failed to parse status: " e))
  end.

(** [a, b = l]: unpacking into two names. *)
Definition unpack2 (l : list string) : result (string * string) :=
  match l with
  | [a; b] => Ok (a, b)
  | _ => Raise (Builtin ValueError)
  end.

(** The body of the loop over the lines of the potfile (lines 180-184). *)
Definition results_line (results : gmap string string) (line : string)
    : result (gmap string string) :=
  try_except
    ('(hash_val, password) ← unpack2 (PyStr.split ":" (PyStr.strip line));
     mret (<[hash_val := password]> results))
    [ValueError]
    (fun _ => mret results).

Fixpoint results_loop (results : gmap string string) (lines : list string)
    : result (gmap string string) :=
  match lines with
  | [] => mret results
  | line :: rest =>
      results ← results_line results line; results_loop results rest
  end.

(** [HashcatRunner.get_results] *)
Definition get_results (fs : filesystem) (self : HashcatRunner)
    : result (gmap string string) :=
  match process self with
  | None => mret ∅
  | Some _ =>
      potfile ← get_path host (config self) "potfile";
      match fs !! potfile with
      | None => mret ∅
      | Some content =>
          results_loop ∅ (PyStr.keepends (PyStr.universal_newlines content))
      end
  end.

End Runner.

(** ** server.py: the name [os] *)

(** server.py calls into [os] (lines 139-140, 293, 313-319, 336-342, 368
    and 578) and none of its imports (lines 1-17) binds that name: the
    evaluation of the name, which is the first step of each of these
    calls, raises [NameError]. [os_call v] is such a call; [v] is what the
    function of the platform would have returned. *)
Definition os_call {A : Type} (v : A) : result A :=
  Raise (Exn NameError "name 'os' is not defined").

(** ** server.py: [PotfileMonitor] *)

Record PotfileMonitor := mkMonitor {
  potfile_path : string;
  last_position : nat;
  last_size : nat;
  _stop : bool;
}.

(** [PotfileMonitor(potfile_path)] *)
Definition new_monitor (potfile_path : string) : PotfileMonitor :=
  mkMonitor potfile_path 0 0 false.

(** Lines 139-141 of one turn of the loop: [os.path.exists], then
    [os.path.getsize] and the comparison with [last_size]. Returns
    [current_size] when the file has grown. *)
Definition grown (fs : filesystem) (self : PotfileMonitor)
    : result (option nat) :=
  file_exists ← os_call (bool_decide (is_Some (fs !! potfile_path self)));
  if file_exists : bool then
    current_size ←
      os_call (String.length (default EmptyString (fs !! potfile_path self)));
    if last_size self <? current_size then Ok (Some current_size)
    else Ok None
  else Ok None.

(** Lines 142-148: open, seek to [last_position], [readlines], one
    callback per line with the line stripped, [last_position = f.tell()]
    (the end of the file, or the position sought when that lies beyond
    the end), then [last_size = current_size]. Returns the callback
    arguments in order. When the file cannot be opened the [except]
    clause leaves the monitor as it was. *)
Definition read_new (fs : filesystem) (self : PotfileMonitor)
    (current_size : nat) : PotfileMonitor * list string :=
  match fs !! potfile_path self with
  | Some content =>
      let new_lines :=
        PyStr.keepends
          (PyStr.universal_newlines (PyStr.drop (last_position self) content)) in
      (mkMonitor (potfile_path self)
         (Nat.max (last_position self) (String.length content)) current_size
         (_stop self),
       map PyStr.strip new_lines)
  | None => (self, [])
  end.

(** Where the monitoring thread is between two of its actions: at the top
    of the loop (after the sleep), or between the size test and the read,
    holding [current_size]. *)
Inductive monitor_pc :=
| AtLoopHead
| AfterSizeTest (current_size : nat).

(** The monitor thread together with the file it shares with hashcat;
    [emitted] lists the arguments of the callback calls so far. *)
Record Tailing := mkTailing {
  fs : filesystem;
  monitor : PotfileMonitor;
  pc : monitor_pc;
  emitted : list string;
}.

(** What can happen next: hashcat appends one line (with its line
    terminator) to a file, the monitoring thread performs its next action,
    or another thread calls [monitor.stop()]. *)
Inductive event :=
| Append (path : string) (line : string)
| MonitorStep
| StopRequested.

Definition append_line (path line : string) (fs : filesystem) : filesystem :=
  <[path := default EmptyString (fs !! path) +:+ line +:+ String PyStr.LF EmptyString]> fs.

(** The next action of [start_monitoring]. At the loop head with [_stop]
    set the loop has ended and nothing happens any more. An exception of
    the size test is caught by [except Exception] (line 149), which
    prints it and goes on to the next turn. *)
Definition monitor_step (t : Tailing) : Tailing :=
  match pc t with
  | AtLoopHead =>
      if _stop (monitor t) then t
      else match grown (fs t) (monitor t) with
           | Ok (Some current_size) =>
               mkTailing (fs t) (monitor t) (AfterSizeTest current_size)
                 (emitted t)
           | Ok None => t
           | Raise _ => t
           end
  | AfterSizeTest current_size =>
      let '(m, out) := read_new (fs t) (monitor t) current_size in
      mkTailing (fs t) m AtLoopHead (emitted t ++ out)
  end.

Definition step (t : Tailing) (e : event) : Tailing :=
  match e with
  | Append path line =>
      mkTailing (append_line path line (fs t)) (monitor t) (pc t) (emitted t)
  | MonitorStep => monitor_step t
  | StopRequested =>
      mkTailing (fs t)
        (mkMonitor (potfile_path (monitor t)) (last_position (monitor t))
           (last_size (monitor t)) true)
        (pc t) (emitted t)
  end.

Definition run (t : Tailing) (schedule : list event) : Tailing :=
  fold_left step schedule t.

(** A new monitor on [path], about to enter its loop. *)
Definition tailing (fs : filesystem) (path : string) : Tailing :=
  mkTailing fs (new_monitor path) AtLoopHead [].

(** The lines appended to [path] during a schedule, in order. *)
Definition appended (path : string) (schedule : list event) : list string :=
  omap (fun e => match e with
                 | Append p line => if String.eqb p path then Some line else None
                 | _ => None
                 end) schedule.

(** ** server.py: [validate_hashcat_args] *)

Definition allowed_args : gset string :=
  {[ "-m"; "-a"; "-w"; "--status"; "--hwmon-disable"; "-O"; "-r" ]}.

(** [arg.split('=')[0] if '=' in arg else arg] *)
Definition arg_base (arg : string) : string :=
  if PyStr.contains "=" arg then hd EmptyString (PyStr.split "=" arg)
  else arg.

(** The checks made on one token that is not skipped (lines 266-271). *)
Definition check_arg (arg : string) : result unit :=
  if PyStr.startswith "-" arg then
    if bool_decide (arg_base arg ∈ allowed_args) then Ok tt
    else Raise (Exn ValueError ("Invalid argument: " +:+ arg))
  else if PyStr.contains ".." arg || PyStr.contains "~" arg then
    Raise (Exn ValueError ("Invalid path in argument: " +:+ arg))
  else Ok tt.

(** The loop over the tokens; [first] is [args[0]]. A token equal to
    [args[0]] is skipped. *)
Fixpoint validate_loop (first : string) (rest : list string) : result unit :=
  match rest with
  | [] => Ok tt
  | arg :: rest =>
      if String.eqb arg first then validate_loop first rest
      else _ ← check_arg arg; validate_loop first rest
  end.

Definition validate_hashcat_args (args : list string) : result bool :=
  match args with
  | [] => Ok true
  | first :: _ => _ ← validate_loop first args; Ok true
  end.

(** ** The containment the specification describes *)

(** The specification (section 4.1) asks that a path-like token resolve,
    after normalization, inside one of the configured root directories.
    [validate_hashcat_args] has no such step; the definitions below follow
    the specification's words, for comparison with the code. A path is
    normalized lexically, the way [os.path.normpath] does: empty and [.]
    components are dropped and [..] removes the component before it. *)
Definition spec_normalize (p : string) : list string :=
  rev (fold_left
         (fun acc c =>
            if String.eqb c EmptyString || String.eqb c "." then acc
            else if String.eqb c ".." then tail acc
            else c :: acc)
         (PyStr.split "/" p) []).

Fixpoint spec_below (root p : list string) : bool :=
  match root, p with
  | [], _ :: _ => true
  | r :: root, c :: p => String.eqb r c && spec_below root p
  | _, _ => false
  end.

(** [tok], taken relative to [cwd] when it is not absolute, lies strictly
    inside one of [roots]. *)
Definition spec_resolves_inside (roots : list string) (cwd tok : string)
    : bool :=
  let abs := if PyStr.startswith "/" tok then tok else cwd +:+ "/" +:+ tok in
  existsb (fun root => spec_below (spec_normalize root) (spec_normalize abs))
    roots.

(** A path-like token is one that is not a flag. *)
Definition path_like (tok : string) : bool := negb (PyStr.startswith "-" tok).

(** ** Auxiliary definitions used in the statements and proofs *)

(** The content of a file made of the given lines, each followed by LF. *)
Fixpoint joined (ls : list string) : string :=
  match ls with
  | [] => EmptyString
  | l :: ls => l +:+ String PyStr.LF (joined ls)
  end.

(** The keys [ConfigModel.validate_paths] requires of a configuration
    (config.py, lines 58-63). *)
Definition required_paths : list string :=
  ["hashcat"; "wordlists"; "rules"; "temp"; "potfile"].

Definition validated (cfg : Config) : Prop :=
  Forall (fun k => is_Some (paths cfg !! k)) required_paths.

(** [SystemPaths.DEBIAN] (config.py, lines 31-37). *)
Definition debian_paths : gmap string string :=
  list_to_map
    [("hashcat", "/usr/bin/hashcat");
     ("wordlists", "/usr/share/wordlists");
     ("rules", "/usr/share/hashcat/rules");
     ("temp", "/tmp");
     ("potfile", "~/.hashcat/hashcat.potfile")].

(** A host for the examples: the home directory is [/home/user], times
    are whole seconds since the epoch. *)
Definition example_host : Host := {|
  datetime := Z;
  now := 1690000000%Z;
  fromtimestamp t :=
    match t with
    | Finite q => Ok (Qfloor q)
    | Infinity _ => Raise (Builtin OverflowError)
    | NaN => Raise (Builtin ValueError)
    end;
  as_path s :=
    match s with
    | String "~" rest => "/home/user" +:+ rest
    | _ => s
    end;
|}.

(** A runner as [HashcatRunner(config)] leaves it. *)
Definition new_runner (cfg : Config) : HashcatRunner := mkRunner cfg None [].

(** The twelve tokens shared by all commands, with the two configured
    paths already resolved. *)
Definition fixed_tokens (hashcat potfile : string) (hash_type attack_mode : Z)
    (hash_file : string) : list string :=
  [hashcat; "--status"; "--status-timer=1"; "--machine-readable"; "--quiet";
   "--potfile-path"; potfile; "-m"; str_of_int hash_type;
   "-a"; str_of_int attack_mode; hash_file].

(** The separator [sep] does not occur in [s]. *)
Fixpoint free_of (sep : ascii) (s : string) : bool :=
  match s with
  | EmptyString => true
  | String c s' => negb (Ascii.eqb c sep) && free_of sep s'
  end.

(** A line of tab-separated fields. *)
Definition status_line (fields : list string) : string :=
  String.concat (String PyStr.TAB EmptyString) fields.

(** The state of the process controller, read off the runner: no process
    handle; a handle whose child is alive and not yet collected; a handle
    whose child has exited (or whose exit status is already cached). *)
Inductive controller_state := NoProcess | Running | Finished.

Definition state_of (self : HashcatRunner) : controller_state :=
  match process self with
  | None => NoProcess
  | Some p =>
      match returncode p, child p with
      | None, Alive => Running
      | _, _ => Finished
      end
  end.

(** The child of the runner's process handle, if there is one. *)
Definition child_of (self : HashcatRunner) : option child_state :=
  child <$> process self.



(** A flag token whose name is not in the allow-list. *)
Definition bad_flag (arg : string) : bool :=
  PyStr.startswith "-" arg && negb (bool_decide (arg_base arg ∈ allowed_args)).

(** A token that is not a flag and holds [..] or [~] somewhere. *)
Definition bad_path (arg : string) : bool :=
  negb (PyStr.startswith "-" arg) &&
  (PyStr.contains ".." arg || PyStr.contains "~" arg).

(** A token the checks of the validator let through. *)
Definition passes (arg : string) : Prop :=
  bad_flag arg = false /\ bad_path arg = false.

(** The roots of the default configuration: the directory of the binary,
    the wordlists, the rules and the temporary directory. *)
Definition debian_roots : list string :=
  ["/usr/bin"; "/usr/share/wordlists"; "/usr/share/hashcat/rules"; "/tmp"].

(** ** hashcat.py: construction and [get_status] *)

(** [HashcatRunner._validate_hashcat_binary]; [path_exists] and [executable]
    are [Path.exists] and [os.access(path, os.X_OK)] on this host. *)
Definition _validate_hashcat_binary (host : Host)
    (path_exists executable : string -> bool) (self : HashcatRunner)
    : result unit :=
  hashcat_path ← get_path host (config self) "hashcat";
  if negb (path_exists hashcat_path) then
    Raise (Exn HashcatError ("Hashcat binary not found at " +:+ hashcat_path))
  else if negb (executable hashcat_path) then
    Raise (Exn HashcatError
             ("Hashcat binary at " +:+ hashcat_path +:+ " is not executable"))
  else Ok tt.

(** [HashcatRunner(config)] *)
Definition init (host : Host) (path_exists executable : string -> bool)
    (config : Config) : result HashcatRunner :=
  let self := mkRunner config None [] in
  _ ← _validate_hashcat_binary host path_exists executable self; Ok self.

(** The loop of [get_status] over the standard output of the process
    (lines 131-137): [stdout] lists what successive [readline] calls
    return; an empty string, or the end of the list, is the end of the
    output. *)
Fixpoint latest_status (status_line : string) (stdout : list string)
    : string :=
  match stdout with
  | [] => status_line
  | line :: rest =>
      match line with
      | EmptyString => status_line
      | _ =>
          latest_status
            (if PyStr.startswith "STATUS" line then line else status_line) rest
      end
  end.

(** [HashcatRunner.get_status] *)
Definition get_status (host : Host) (w : World) (self : HashcatRunner)
    (stdout : list string)
    : World * HashcatRunner * result (HashcatStatus host) :=
  match process self with
  | None => (w, self, Raise (Exn HashcatError "No active process"))
  | Some p =>
      let '(w, p, rc) := poll w p in
      match rc with
      | Some code =>
          (w, set_process self p,
           Ok (mkStatus (if (code =? 0)%Z then "Finished" else "Failed")
                 (float_of_Z (if (code =? 0)%Z then 100 else 0))
                 "0 H/s" EmptyString 0%Z 0%Z (now host)))
      | None =>
          (w, set_process self p,
           _parse_status host (latest_status EmptyString stdout))
      end
  end.

(** A line [readline] can return before the end of the output. *)
Definition nonempty (s : string) : bool :=
  match s with EmptyString => false | _ => true end.

(** The record a potfile line stands for: its two parts when the stripped
    line splits at [:] into exactly two, nothing otherwise. *)
Definition entry_of (line : string) : option (string * string) :=
  match PyStr.split ":" (PyStr.strip line) with
  | [hash_val; password] => Some (hash_val, password)
  | _ => None
  end.

(** The password of the last line, if any, that is a record for
    [hash_val]. *)
Definition last_password (hash_val : string) (lines : list string)
    : option string :=
  last (omap (fun line =>
                match entry_of line with
                | Some (h, p) => if String.eqb h hash_val then Some p else None
                | None => None
                end) lines).

(** ** server.py: [clear_potfile] *)



(** ** server.py: the command of [run_hashcat] *)

(** [s.split()]: the words of [s], separated by runs of white space.
    [words_from s] is the word that starts [s] (empty when [s] starts
    with white space or is empty) and the words after it. *)
Fixpoint words_from (s : string) : string * list string :=
  match s with
  | EmptyString => (EmptyString, [])
  | String c s' =>
      let '(w, ws) := words_from s' in
      if PyStr.is_space c then
        (EmptyString, match w with EmptyString => ws | _ => w :: ws end)
      else (String c w, ws)
  end.

Definition split_words (s : string) : list string :=
  let '(w, ws) := words_from s in
  match w with EmptyString => ws | _ => w :: ws end.

(** [str.lower] on one character with a code point below 256. *)
Definition lower_char (c : ascii) : ascii :=
  let n := nat_of_ascii c in
  if ((65 <=? n) && (n <=? 90))
     || ((192 <=? n) && (n <=? 222) && negb (n =? 215))
  then ascii_of_nat (n + 32) else c.

(** [s.lower()] *)
Fixpoint str_lower (s : string) : string :=
  match s with
  | EmptyString => EmptyString
  | String c s' => String (lower_char c) (str_lower s')
  end.

(** [s.endswith(suffix)] *)
Fixpoint endswith (suffix s : string) : bool :=
  String.eqb suffix s ||
  match s with
  | String _ s' => endswith suffix s'
  | EmptyString => false
  end.

(** [s.replace(old, "")] for a non-empty [old]: the occurrences of
    [old], found from the left and not overlapping, are taken out.
    [skip] counts the characters of an occurrence still to drop. *)
Fixpoint remove_from (old : string) (skip : nat) (s : string) : string :=
  match s with
  | EmptyString => EmptyString
  | String c s' =>
      match skip with
      | S k => remove_from old k s'
      | O =>
          if String.prefix old s then
            remove_from old (String.length old - 1) s'
          else String c (remove_from old 0 s')
      end
  end.

Definition remove_all (old s : string) : string := remove_from old 0 s.

(** The module's globals (lines 84-89 and 43). *)
Record Globals := {
  HASHCAT_PATH : string;
  WORDLISTS_PATH : string;
  RULES_PATH : string;
  TEMP_DIR : string;
}.

Definition DEFAULT_HASH_FILE : string := "crackme.txt".

(** What the handler asks of the platform: [os.path.join],
    [os.path.normpath], whether [open(path, 'w')] followed by the write
    goes through or raises, and whether [sys.platform] is ['win32']. *)
Record OsPath := {
  join : string -> string -> string;
  normpath : string -> string;
  open_w : string -> result unit;
  win32 : bool;
}.

(** What the loop of lines 309-321 puts in place of one token of a
    custom command. *)
Definition substitute (g : Globals) (os : OsPath) (hash_file arg : string)
    : result string :=
  if String.eqb arg "temp_hashes.txt" || String.eqb arg "crackme.txt" then
    Ok hash_file
  else if PyStr.startswith "wordlists/" arg then
    wordlist_path ←
      os_call (join os (WORDLISTS_PATH g) (remove_all "wordlists/" arg));
    resolved ← os_call (normpath os wordlist_path);
    root ← os_call (normpath os (WORDLISTS_PATH g));
    if negb (PyStr.startswith root resolved) then
      Raise (Exn ValueError "Invalid wordlist path")
    else Ok wordlist_path
  else if PyStr.startswith "rules/" arg then
    rule_path ← os_call (join os (RULES_PATH g) (remove_all "rules/" arg));
    resolved ← os_call (normpath os rule_path);
    root ← os_call (normpath os (RULES_PATH g));
    if negb (PyStr.startswith root resolved) then
      Raise (Exn ValueError "Invalid rule path")
    else Ok rule_path
  else Ok arg.

Fixpoint substitute_all (g : Globals) (os : OsPath) (hash_file : string)
    (cmd : list string) : result (list string) :=
  match cmd with
  | [] => Ok []
  | arg :: rest =>
      arg ← substitute g os hash_file arg;
      rest ← substitute_all g os hash_file rest;
      Ok (arg :: rest)
  end.

(** Lines 297-324: the command made from [customCommand]. *)
Definition custom_command_tokens (g : Globals) (os : OsPath)
    (hash_file custom_command : string) : result (list string) :=
  let cmd := split_words custom_command in
  first ← getitem cmd 0;
  if negb (endswith "hashcat.exe" (str_lower first)) then
    Raise (Exn ValueError "Invalid executable specified")
  else
    cmd ← substitute_all g os hash_file (HASHCAT_PATH g :: tail cmd);
    _ ← validate_hashcat_args cmd;
    Ok cmd.

(** Lines 326-344: the default command. The elements of the list are
    evaluated in order, the call of [os.path.join] last. *)
Definition default_command_tokens (g : Globals) (os : OsPath)
    (hash_type hash_file wordlist : string) (ruleset : option string)
    : result (list string) :=
  wordlist_path ← os_call (join os (WORDLISTS_PATH g) wordlist);
  let cmd :=
    [HASHCAT_PATH g; "-w2"; "-m"; hash_type; "-a"; "0"; "--status";
     "--hwmon-disable"; "-O"; hash_file; wordlist_path] in
  if truthy ruleset then
    rule_path ← os_call (join os (RULES_PATH g) (default EmptyString ruleset));
    resolved ← os_call (normpath os rule_path);
    root ← os_call (normpath os (RULES_PATH g));
    if negb (PyStr.startswith root resolved) then
      Raise (Exn ValueError "Invalid rule path")
    else Ok (cmd ++ ["-r"; rule_path])
  else Ok cmd.

(** What [run_hashcat] answers, up to the point where it hands the
    command to [subprocess.Popen]: status 400, status 500 with the
    exception caught by [except Exception], or the command to spawn. *)
Inductive run_answer :=
| BadRequest
| ServerError (e : exn)
| Spawn (cmd : list string).

(** [run_hashcat], lines 279-370, with the fields of the request as
    optional strings. When no hash file is named, the hashes are to be
    written to the default file in the temporary directory. On a platform
    other than win32 the arguments of [subprocess.Popen] include
    [os.setsid], evaluated before the call. Every exception is caught by
    [except Exception] (line 415) and answered with status 500. *)
Definition run_hashcat (g : Globals) (os : OsPath) (fs : filesystem)
    (hash_type hashes wordlist ruleset custom_command hash_file
       : option string)
    : filesystem * run_answer :=
  if negb (truthy hash_type) || negb (truthy hashes || truthy hash_file)
     || negb (truthy wordlist) then (fs, BadRequest)
  else
    let '(fs, opened) :=
      if truthy hash_file then (fs, Ok (default EmptyString hash_file))
      else
        match os_call (join os (TEMP_DIR g) DEFAULT_HASH_FILE) with
        | Ok path =>
            match open_w os path with
            | Ok _ => (<[path := default EmptyString hashes]> fs, Ok path)
            | Raise e => (fs, Raise e)
            end
        | Raise e => (fs, Raise e)
        end in
    let cmd :=
      hash_file ← opened;
      cmd ← (if truthy custom_command then
               custom_command_tokens g os hash_file
                 (default EmptyString custom_command)
             else
               default_command_tokens g os (default EmptyString hash_type)
                 hash_file (default EmptyString wordlist) ruleset);
      _ ← validate_hashcat_args cmd;
      _ ← (if win32 os then Ok tt else os_call tt);
      Ok cmd in
    match cmd with
    | Ok cmd => (fs, Spawn cmd)
    | Raise e => (fs, ServerError e)
    end.

(** Globals and path functions for the examples. *)
Definition example_globals : Globals := {|
  HASHCAT_PATH := "C:/hashcat/hashcat.exe";
  WORDLISTS_PATH := "C:/hashcat/wordlists";
  RULES_PATH := "C:/hashcat/rules";
  TEMP_DIR := "C:/temp";
|}.

Definition example_ospath : OsPath := {|
  join a b := a +:+ "/" +:+ b;
  normpath p := p;
  open_w _ := Ok tt;
  win32 := true;
|}.

(** ** server.py: [load_hash_types] and [get_example_hash] *)

(** The dictionary [examples] of [get_example_hash] (lines 116-122). *)
Definition examples : gmap string string :=
  list_to_map
    [("0", "8743b52063cd84097a65d1633f5c74f5");
     ("100", "b89eaac7e61417341b710b727768294d0e6a277b");
     ("1000", "b4b9b02e6f09a9bd760f388b67351e2b");
     ("1800", "$6$52450745$k5ka2p8bFuSmoVT1tzOyyuaREkkKBcCNqoDKzYiJL9RaE8yMnPgh2XzzF0NDrUhgrcLwg78xs1w5pJiypEdFX/");
     ("3200", "$2a$05$LhayLxezLhK1LhWvKxCyLOj0j1u.Kj0jZ0pEmm134uzrQlFvQJLF6")].

Definition get_example_hash (mode_id : string) : string :=
  default "Example hash not available" (examples !! mode_id).

(** The dictionary stored for one hash mode. *)
Record HashType := mkHashType {
  name : string;
  category : string;
  example : string;
}.

(** [a, b, c = l]: unpacking into three names. *)
Definition unpack3 (l : list string) : result (string * string * string) :=
  match l with
  | [a; b; c] => Ok (a, b, c)
  | _ => Raise (Builtin ValueError)
  end.

(** The body of the loop over the lines of [hash_types.txt] (lines 97-103). *)
Definition hash_types_line (hash_types : gmap string HashType)
    (line : string) : result (gmap string HashType) :=
  if nonempty (PyStr.strip line) then
    '(mode_id, name, category) ←
      unpack3 (PyStr.split "|" (PyStr.strip line));
    Ok (<[mode_id := mkHashType name category (get_example_hash mode_id)]>
          hash_types)
  else Ok hash_types.

Fixpoint hash_types_loop (hash_types : gmap string HashType)
    (lines : list string) : result (gmap string HashType) :=
  match lines with
  | [] => Ok hash_types
  | line :: rest =>
      hash_types ← hash_types_line hash_types line;
      hash_types_loop hash_types rest
  end.

(** The table of lines 107-111. *)
Definition fallback_hash_types : gmap string HashType :=
  list_to_map
    [("0", mkHashType "MD5" "Raw Hash" "8743b52063cd84097a65d1633f5c74f5");
     ("100", mkHashType "SHA1" "Raw Hash"
               "b89eaac7e61417341b710b727768294d0e6a277b");
     ("1000", mkHashType "NTLM" "Operating System"
                "b4b9b02e6f09a9bd760f388b67351e2b")].

(** [load_hash_types], the definition of lines 91-112, which is the one in
    effect: any exception, of opening the file or of a line, replaces
    the whole table by the fallback one. *)
Definition load_hash_types (fs : filesystem) : gmap string HashType :=
  let loaded :=
    match fs !! "hash_types.txt" with
    | None => Raise (Builtin FileNotFoundError)
    | Some content =>
        hash_types_loop ∅ (PyStr.keepends (PyStr.universal_newlines content))
    end in
  match loaded with
  | Ok hash_types => hash_types
  | Raise _ => fallback_hash_types
  end.

(** The entry a line of [hash_types.txt] stands for: its three parts,
    with the example of the mode, when the stripped line splits at [|]
    into exactly three. *)
Definition hash_type_of (line : string) : option (string * HashType) :=
  match PyStr.split "|" (PyStr.strip line) with
  | [mode_id; name; category] =>
      Some (mode_id, mkHashType name category (get_example_hash mode_id))
  | _ => None
  end.

(** The entry of the last line, if any, that is for [mode_id]. *)
Definition last_hash_type (mode_id : string) (lines : list string)
    : option HashType :=
  last (omap (fun line =>
                match hash_type_of line with
                | Some (m, e) => if String.eqb m mode_id then Some e else None
                | None => None
                end) lines).

(** A line the loop takes without an exception: blank, or of three
    parts. *)
Definition well_formed (line : string) : bool :=
  negb (nonempty (PyStr.strip line))
  || (length (PyStr.split "|" (PyStr.strip line)) =? 3).

(** ** config.py: the validators of [ConfigModel] *)

(** [ConfigModel.validate_paths] (lines 58-63). [repr] is how Python
    prints the set of missing keys in the message. *)
Definition validate_paths (repr : gset string -> string)
    (v : gmap string string) : result (gmap string string) :=
  let required : gset string := list_to_set required_paths in
  let missing := required ∖ dom v in
  if bool_decide (missing = ∅) then Ok v
  else Raise (Exn ValueError ("Missing required paths: " +:+ repr missing)).

(** [ConfigModel.validate_theme] (lines 72-77). *)
Definition validate_theme (repr : gset string -> string) (v : string)
    : result string :=
  let valid_themes : gset string := {[ "light"; "dark"; "system" ]} in
  if bool_decide (str_lower v ∈ valid_themes) then Ok (str_lower v)
  else Raise (Exn ValueError
                ("Invalid theme. Must be one of " +:+ repr valid_themes)).

(** [ConfigModel.validate_language] (lines 79-84). *)
Definition validate_language (repr : gset string -> string) (v : string)
    : result string :=
  let valid_languages : gset string := {[ "en"; "es"; "fr"; "de" ]} in
  if bool_decide (str_lower v ∈ valid_languages) then Ok (str_lower v)
  else Raise (Exn ValueError
                ("Invalid language. Must be one of " +:+ repr valid_languages)).

(** * Properties *)

(** ** Strings *)

Lemma str_app_cons c s t : String c s +:+ t = String c (s +:+ t).
Proof. reflexivity. Qed.

Lemma str_app_assoc (a b c : string) : (a +:+ b) +:+ c = a +:+ (b +:+ c).
Proof. induction a as [|x a IH]; [reflexivity|]. by rewrite !str_app_cons, IH. Qed.

Lemma rstrip_line l :
  PyStr.rstrip (l +:+ String PyStr.LF EmptyString) = PyStr.rstrip l.
Proof.
  induction l as [|c l IH]; [reflexivity|].
  rewrite str_app_cons. simpl. by rewrite IH.
Qed.

(** The line terminator that [readlines] keeps is removed by [strip]. *)
Lemma strip_line l :
  PyStr.strip (l +:+ String PyStr.LF EmptyString) = PyStr.strip l.
Proof.
  unfold PyStr.strip. induction l as [|c l IH]; [reflexivity|].
  rewrite str_app_cons. simpl. destruct (PyStr.is_space c); [exact IH|].
  rewrite <- str_app_cons. apply rstrip_line.
Qed.

(** ** The potfile monitor *)

Lemma monitor_step_at_loop_head t : pc t = AtLoopHead -> monitor_step t = t.
Proof.
  intros Hpc. unfold monitor_step. rewrite Hpc.
  by destruct (_stop (monitor t)).
Qed.

(** A monitor at the head of its loop stays there and keeps what it has
    emitted, its cursor and its recorded size, whatever happens next. *)
Lemma monitor_idle_at_loop_head schedule : forall t,
  pc t = AtLoopHead ->
  pc (run t schedule) = AtLoopHead /\
  emitted (run t schedule) = emitted t /\
  last_position (monitor (run t schedule)) = last_position (monitor t) /\
  last_size (monitor (run t schedule)) = last_size (monitor t).
Proof.
  induction schedule as [|e s IH]; intros t Hpc; [done|].
  change (run t (e :: s)) with (run (step t e) s).
  destruct e as [p l| |].
  - by destruct (IH (step t (Append p l)) Hpc) as (? & ? & ? & ?).
  - change (step t MonitorStep) with (monitor_step t).
    rewrite monitor_step_at_loop_head by done. by apply IH.
  - by destruct (IH (step t StopRequested) Hpc) as (? & ? & ? & ?).
Qed.

(** C1 fails on the code: the monitor never calls its callback. Each turn
    of the loop starts with [os.path.exists], the name [os] is not bound
    in server.py, and the [NameError] is caught and printed by the loop.
    A new monitor therefore emits nothing and keeps its cursor and its
    recorded size at 0 for every sequence of appends and every
    interleaving of its turns with them; as soon as one line has been
    appended, what it has emitted is not the appended lines. *)
Theorem monitor_never_calls_the_callback fs0 path schedule :
  let t := run (tailing fs0 path) schedule in
  emitted t = [] /\
  last_position (monitor t) = 0 /\
  last_size (monitor t) = 0 /\
  (appended path schedule <> [] ->
   emitted t <> map PyStr.strip (appended path schedule)).
Proof.
  intros t.
  destruct (monitor_idle_at_loop_head schedule (tailing fs0 path) eq_refl)
    as (_ & Hem & Hpos & Hsize).
  fold t in Hem, Hpos, Hsize. split_and!; [done..|].
  intros Hne. rewrite Hem. simpl.
  by destruct (appended path schedule).
Qed.

(** The failing input of C1: one line appended and three turns of the
    monitor give no callback call, where the claim asks for one. *)
Lemma monitor_never_calls_the_callback_witness :
  emitted
    (run (tailing ∅ "hashcat.potfile")
       [Append "hashcat.potfile" "5f4dcc3b5aa765d61d8327deb882cf99:password";
        MonitorStep; MonitorStep; MonitorStep])
  = [] /\
  map PyStr.strip
    (appended "hashcat.potfile"
       [Append "hashcat.potfile" "5f4dcc3b5aa765d61d8327deb882cf99:password";
        MonitorStep; MonitorStep; MonitorStep])
  = ["5f4dcc3b5aa765d61d8327deb882cf99:password"].
Proof.
  split.
  - apply (monitor_never_calls_the_callback ∅ "hashcat.potfile"
             [Append "hashcat.potfile"
                "5f4dcc3b5aa765d61d8327deb882cf99:password";
              MonitorStep; MonitorStep; MonitorStep]).
  - reflexivity.
Defined.

(** ** The command builder *)

Lemma validated_lookup cfg k :
  validated cfg -> k ∈ required_paths -> is_Some (paths cfg !! k).
Proof. intros Hv Hk. by apply (proj1 (Forall_forall _ _) Hv). Qed.

Lemma base_command_validated host self hash_type hash_file attack_mode :
  validated (config self) ->
  exists hashcat potfile,
    paths (config self) !! "hashcat" = Some hashcat /\
    paths (config self) !! "potfile" = Some potfile /\
    base_command host self hash_type hash_file attack_mode
    = Ok (fixed_tokens (as_path host hashcat) (as_path host potfile)
            hash_type attack_mode hash_file).
Proof.
  intros Hv.
  destruct (validated_lookup _ "hashcat" Hv) as [hc Hhc]; [set_solver|].
  destruct (validated_lookup _ "potfile" Hv) as [pf Hpf]; [set_solver|].
  exists hc, pf. split_and!; [done..|].
  unfold base_command, get_path. by rewrite Hhc, Hpf.
Qed.

Lemma build_command_unfold host self hash_type hash_file attack_mode
    wordlist rule mask cmd :
  base_command host self hash_type hash_file attack_mode = Ok cmd ->
  build_command host self hash_type hash_file attack_mode wordlist rule mask
  = match attack_parameters cmd attack_mode wordlist rule mask with
    | Ok cmd => (set_command self cmd, Ok cmd)
    | Raise e => (self, Raise e)
    end.
Proof. intros H. unfold build_command. by rewrite H. Qed.

(** C3. With a validated configuration, a build in attack mode 0 whose
    wordlist is missing ([None] or empty), and a build in attack mode 3
    whose mask is missing, raise [CommandError]; the runner is returned as
    it was, so no command is stored and no process handle is installed.
    The builder validates no path and starts nothing on any path. *)
Theorem build_command_missing_parameter host self hash_type hash_file
    attack_mode wordlist rule mask :
  validated (config self) ->
  (attack_mode = 0%Z -> truthy wordlist = false ->
   build_command host self hash_type hash_file attack_mode wordlist rule mask
   = (self, Raise (Exn CommandError "Wordlist required for attack mode 0")))
  /\
  (attack_mode = 3%Z -> truthy mask = false ->
   build_command host self hash_type hash_file attack_mode wordlist rule mask
   = (self, Raise (Exn CommandError "Mask required for attack mode 3"))).
Proof.
  intros Hv.
  destruct (base_command_validated host self hash_type hash_file attack_mode Hv)
    as (hc & pf & _ & _ & Hbase).
  split; intros -> Hmissing;
    rewrite (build_command_unfold _ _ _ _ _ _ _ _ _ Hbase);
    unfold attack_parameters; simpl; by rewrite Hmissing.
Qed.

Lemma build_command_missing_parameter_witness :
  build_command example_host (new_runner {| paths := debian_paths |})
    0 "hashes.txt" 0 None None None
  = (new_runner {| paths := debian_paths |},
     Raise (Exn CommandError "Wordlist required for attack mode 0"))
  /\
  build_command example_host (new_runner {| paths := debian_paths |})
    0 "hashes.txt" 3 (Some "rockyou.txt") None None
  = (new_runner {| paths := debian_paths |},
     Raise (Exn CommandError "Mask required for attack mode 3")).
Proof.
  assert (Hv : validated {| paths := debian_paths |})
    by (repeat constructor; by eexists).
  split.
  - apply (build_command_missing_parameter example_host
             (new_runner {| paths := debian_paths |}) 0 "hashes.txt" 0
             None None None Hv); reflexivity.
  - apply (build_command_missing_parameter example_host
             (new_runner {| paths := debian_paths |}) 0 "hashes.txt" 3
             (Some "rockyou.txt") None None Hv); reflexivity.
Defined.

(** C4, as stated, fails: a build in attack mode 1 is not rejected; it
    returns the twelve fixed tokens. *)
Lemma build_command_accepts_mode_1 :
  build_command example_host (new_runner {| paths := debian_paths |})
    0 "hashes.txt" 1 None None None
  = (set_command (new_runner {| paths := debian_paths |})
       ["/usr/bin/hashcat"; "--status"; "--status-timer=1";
        "--machine-readable"; "--quiet"; "--potfile-path";
        "/home/user/.hashcat/hashcat.potfile"; "-m"; "0"; "-a"; "1";
        "hashes.txt"],
     Ok ["/usr/bin/hashcat"; "--status"; "--status-timer=1";
         "--machine-readable"; "--quiet"; "--potfile-path";
         "/home/user/.hashcat/hashcat.potfile"; "-m"; "0"; "-a"; "1";
         "hashes.txt"]).
Proof. vm_compute. reflexivity. Qed.

(** C4, amended. With a validated configuration, for every attack mode
    other than 0 and 3 the builder raises nothing: whatever the optional
    arguments are, it returns the twelve fixed tokens (binary path,
    monitoring flags, potfile path, [-m] and [-a] with their values, hash
    file) with no attack-specific token, and stores them as the runner's
    command. *)
Theorem build_command_other_modes host self hash_type hash_file attack_mode
    wordlist rule mask :
  validated (config self) ->
  attack_mode <> 0%Z -> attack_mode <> 3%Z ->
  exists hashcat potfile,
    paths (config self) !! "hashcat" = Some hashcat /\
    paths (config self) !! "potfile" = Some potfile /\
    let cmd := fixed_tokens (as_path host hashcat) (as_path host potfile)
                 hash_type attack_mode hash_file in
    build_command host self hash_type hash_file attack_mode wordlist rule mask
    = (set_command self cmd, Ok cmd).
Proof.
  intros Hv H0 H3.
  destruct (base_command_validated host self hash_type hash_file attack_mode Hv)
    as (hc & pf & Hhc & Hpf & Hbase).
  exists hc, pf. split_and!; [done..|]. simpl.
  rewrite (build_command_unfold _ _ _ _ _ _ _ _ _ Hbase).
  unfold attack_parameters.
  destruct (Z.eqb_spec attack_mode 0); [done|].
  by destruct (Z.eqb_spec attack_mode 3).
Qed.

Lemma build_command_other_modes_witness :
  exists hashcat potfile,
    debian_paths !! "hashcat" = Some hashcat /\
    debian_paths !! "potfile" = Some potfile /\
    build_command example_host (new_runner {| paths := debian_paths |})
      1000 "ntlm.txt" 6 (Some "rockyou.txt") None (Some "?d?d")
    = (set_command (new_runner {| paths := debian_paths |})
         (fixed_tokens (as_path example_host hashcat)
            (as_path example_host potfile) 1000 6 "ntlm.txt"),
       Ok (fixed_tokens (as_path example_host hashcat)
             (as_path example_host potfile) 1000 6 "ntlm.txt")).
Proof.
  apply (build_command_other_modes example_host
           (new_runner {| paths := debian_paths |}) 1000 "ntlm.txt" 6
           (Some "rockyou.txt") None (Some "?d?d")).
  - repeat constructor; by eexists.
  - lia.
  - lia.
Defined.

Lemma str_of_int_not_rule_flag n : str_of_int n <> "-r".
Proof.
  unfold str_of_int. destruct n as [|p|p]; simpl; [done| |].
  - unfold NilZero.string_of_int. simpl.
    destruct (Pos.to_uint p); discriminate.
  - unfold NilZero.string_of_int. simpl.
    destruct (Pos.to_uint p); discriminate.
Qed.

(** C5. With a validated configuration, a build in attack mode 0 with a
    wordlist and no rule ([None] or empty) returns, and stores, exactly
    thirteen tokens: the resolved binary path; [--status],
    [--status-timer=1], [--machine-readable], [--quiet], [--potfile-path]
    and the resolved potfile path; [-m] and the hash type; [-a] and [0];
    the hash file; the wordlist. The builder puts no [-r] in it: the
    vector holds [-r] only if one of the four supplied path strings is
    itself spelled [-r]. *)
Theorem build_command_wordlist_no_rule host self hash_type hash_file
    wordlist rule mask :
  validated (config self) ->
  wordlist <> EmptyString ->
  truthy rule = false ->
  exists hashcat potfile,
    paths (config self) !! "hashcat" = Some hashcat /\
    paths (config self) !! "potfile" = Some potfile /\
    let cmd := [as_path host hashcat; "--status"; "--status-timer=1";
                "--machine-readable"; "--quiet"; "--potfile-path";
                as_path host potfile; "-m"; str_of_int hash_type; "-a"; "0";
                hash_file; wordlist] in
    build_command host self hash_type hash_file 0 (Some wordlist) rule mask
    = (set_command self cmd, Ok cmd) /\
    ("-r" ∉ [as_path host hashcat; as_path host potfile; hash_file; wordlist]
     -> "-r" ∉ cmd).
Proof.
  intros Hv Hw Hr.
  destruct (base_command_validated host self hash_type hash_file 0 Hv)
    as (hc & pf & Hhc & Hpf & Hbase).
  exists hc, pf. split_and!; [done..|]. intros cmd. split.
  - rewrite (build_command_unfold _ _ _ _ _ _ _ _ _ Hbase).
    unfold attack_parameters. simpl.
    destruct wordlist as [|c w]; [done|]. simpl. by rewrite Hr.
  - pose proof (str_of_int_not_rule_flag hash_type) as Hn.
    unfold cmd. rewrite !not_elem_of_cons. intros (? & ? & ? & ? & _).
    split_and!; try done. apply not_elem_of_nil.
Qed.

Lemma build_command_wordlist_no_rule_witness :
  exists hashcat potfile,
    debian_paths !! "hashcat" = Some hashcat /\
    debian_paths !! "potfile" = Some potfile /\
    build_command example_host (new_runner {| paths := debian_paths |})
      0 "hashes.txt" 0 (Some "rockyou.txt") None None
    = (set_command (new_runner {| paths := debian_paths |})
         [as_path example_host hashcat; "--status"; "--status-timer=1";
          "--machine-readable"; "--quiet"; "--potfile-path";
          as_path example_host potfile; "-m"; str_of_int 0; "-a"; "0";
          "hashes.txt"; "rockyou.txt"],
       Ok [as_path example_host hashcat; "--status"; "--status-timer=1";
           "--machine-readable"; "--quiet"; "--potfile-path";
           as_path example_host potfile; "-m"; str_of_int 0; "-a"; "0";
           "hashes.txt"; "rockyou.txt"]) /\
    ("-r" ∉ [as_path example_host hashcat; as_path example_host potfile;
             "hashes.txt"; "rockyou.txt"]
     -> "-r" ∉ [as_path example_host hashcat; "--status"; "--status-timer=1";
                "--machine-readable"; "--quiet"; "--potfile-path";
                as_path example_host potfile; "-m"; str_of_int 0; "-a"; "0";
                "hashes.txt"; "rockyou.txt"]).
Proof.
  apply (build_command_wordlist_no_rule example_host
           (new_runner {| paths := debian_paths |}) 0 "hashes.txt"
           "rockyou.txt" None None).
  - repeat constructor; by eexists.
  - discriminate.
  - reflexivity.
Defined.

(** ** Reading the results *)

Lemma results_line_ok results line :
  exists m, results_line results line = Ok m.
Proof.
  unfold results_line.
  destruct (PyStr.split ":" (PyStr.strip line)) as [|a [|b [|c l]]];
    simpl; eauto.
Qed.

Lemma results_line_malformed results line :
  length (PyStr.split ":" (PyStr.strip line)) <> 2 ->
  results_line results line = Ok results.
Proof.
  unfold results_line.
  by destruct (PyStr.split ":" (PyStr.strip line)) as [|a [|b [|c l]]].
Qed.

Lemma results_loop_ok lines : forall results,
  exists m, results_loop results lines = Ok m.
Proof.
  induction lines as [|line rest IH]; intros results; simpl; [by eexists|].
  destruct (results_line_ok results line) as [m ->]. apply IH.
Qed.

Lemma results_loop_app before : forall results after,
  results_loop results (before ++ after)
  = results ← results_loop results before; results_loop results after.
Proof.
  induction before as [|line rest IH]; intros results after; simpl; [done|].
  destruct (results_line_ok results line) as [m ->]. apply IH.
Qed.

(** C7. A line of the results file whose stripped text does not split at
    [:] into exactly two parts leaves the mapping being built as it was,
    and the loop goes on with the lines after it: the result is the one
    obtained without that line. The loop raises nothing on any input. *)
Theorem malformed_line_is_discarded results before line after :
  length (PyStr.split ":" (PyStr.strip line)) <> 2 ->
  results_line results line = Ok results /\
  results_loop results (before ++ line :: after)
  = results_loop results (before ++ after) /\
  exists m, results_loop results (before ++ line :: after) = Ok m.
Proof.
  intros Hbad. split_and!.
  - by apply results_line_malformed.
  - rewrite !results_loop_app.
    destruct (results_loop_ok before results) as [m ->]. simpl.
    by rewrite results_line_malformed.
  - apply results_loop_ok.
Qed.

Lemma malformed_line_is_discarded_witness :
  results_loop ∅
    (["8743b52063cd84097a65d1633f5c74f5:hashcat"]
     ++ "a:b:c" :: ["5f4dcc3b5aa765d61d8327deb882cf99:password"])
  = results_loop ∅
      (["8743b52063cd84097a65d1633f5c74f5:hashcat"]
       ++ ["5f4dcc3b5aa765d61d8327deb882cf99:password"]).
Proof.
  refine (proj1 (proj2 (malformed_line_is_discarded ∅ _ "a:b:c" _ _))).
  vm_compute. lia.
Defined.

(** C10. [get_results] returns the empty mapping, and raises nothing,
    when the runner holds no process handle (none was ever started), and,
    with a validated configuration, when no file exists at the configured
    potfile path. *)
Theorem get_results_empty host fs self :
  (process self = None -> get_results host fs self = Ok ∅) /\
  (forall potfile,
     paths (config self) !! "potfile" = Some potfile ->
     fs !! as_path host potfile = None ->
     get_results host fs self = Ok ∅).
Proof.
  unfold get_results, get_path. split.
  - by intros ->.
  - intros potfile Hp Hfs. destruct (process self); [|done].
    rewrite Hp. simpl. by rewrite Hfs.
Qed.

Lemma get_results_empty_witness :
  get_results example_host ∅ (new_runner {| paths := debian_paths |}) = Ok ∅ /\
  get_results example_host ∅
    (mkRunner {| paths := debian_paths |}
       (Some (mkPopen ["/usr/bin/hashcat"] None Alive)) ["/usr/bin/hashcat"])
  = Ok ∅.
Proof.
  split.
  - apply (proj1 (get_results_empty example_host ∅
                    (new_runner {| paths := debian_paths |}))).
    reflexivity.
  - apply (proj2 (get_results_empty example_host ∅
                    (mkRunner {| paths := debian_paths |}
                       (Some (mkPopen ["/usr/bin/hashcat"] None Alive))
                       ["/usr/bin/hashcat"]))
             "~/.hashcat/hashcat.potfile").
    + reflexivity.
    + reflexivity.
Defined.

(** ** Starting the process *)

(** A spawn failure of the operating system reaches the caller of [start]
    as it is: [except subprocess.SubprocessError] does not catch an
    [OSError]. The runner is unchanged. *)
Lemma start_oserror_propagates popen self e :
  command self <> [] ->
  popen (command self) = Raise e ->
  isinstance e [OSError] = true ->
  start popen self = (self, Raise e) /\ class_of e <> ExecutionError.
Proof.
  intros Hcmd Hspawn Hos. unfold start.
  destruct (command self) as [|tok cmd] eqn:Hc; [done|].
  rewrite Hspawn. unfold try_except.
  assert (Hsub : isinstance e [SubprocessError] = false).
  { unfold isinstance in *. simpl in *. by destruct (class_of e). }
  rewrite Hsub. split; [done|].
  intros Hcls. unfold isinstance in Hos. simpl in Hos. by rewrite Hcls in Hos.
Qed.

(** C8 fails on the code: with the binary missing, [Popen] raises
    [FileNotFoundError] and [start] lets it through instead of raising
    [ExecutionError]. Only the second half of the claim holds: the runner
    is returned unchanged, without a process handle. *)
Theorem start_missing_binary_raises_oserror :
  start (fun _ => Raise (Builtin FileNotFoundError))
    (mkRunner {| paths := debian_paths |} None ["/usr/bin/hashcat"; "-m"; "0"])
  = (mkRunner {| paths := debian_paths |} None ["/usr/bin/hashcat"; "-m"; "0"],
     Raise (Builtin FileNotFoundError)).
Proof. reflexivity. Qed.

(** ** The status parser *)

Lemma split_cons sep c s :
  PyStr.split sep (String c s)
  = if Ascii.eqb c sep then EmptyString :: PyStr.split sep s
    else match PyStr.split sep s with
         | h :: t => String c h :: t
         | [] => [String c EmptyString]
         end.
Proof. reflexivity. Qed.

Lemma free_of_cons sep c s :
  free_of sep (String c s) = true ->
  Ascii.eqb c sep = false /\ free_of sep s = true.
Proof.
  change (free_of sep (String c s))
    with (negb (Ascii.eqb c sep) && free_of sep s).
  destruct (Ascii.eqb c sep); simpl; [discriminate|done].
Qed.

Lemma split_free sep s : free_of sep s = true -> PyStr.split sep s = [s].
Proof.
  induction s as [|c s IH]; [done|].
  intros (Hc & Hs)%free_of_cons. by rewrite split_cons, Hc, IH.
Qed.

Lemma split_app_sep sep a b :
  free_of sep a = true ->
  PyStr.split sep (a +:+ String sep b) = a :: PyStr.split sep b.
Proof.
  induction a as [|c a IH].
  - intros _.
    change (PyStr.split sep (String sep b) = EmptyString :: PyStr.split sep b).
    by rewrite split_cons, Ascii.eqb_refl.
  - intros (Hc & Ha)%free_of_cons.
    change (String c a +:+ String sep b) with (String c (a +:+ String sep b)).
    by rewrite split_cons, Hc, IH.
Qed.

(** Splitting the joined fields gives the fields back. *)
Lemma split_concat sep f fields :
  Forall (fun s => free_of sep s = true) (f :: fields) ->
  PyStr.split sep (String.concat (String sep EmptyString) (f :: fields))
  = f :: fields.
Proof.
  revert f. induction fields as [|g fields IH]; intros f Hfree.
  - simpl. apply split_free. by inversion Hfree.
  - inversion Hfree as [|? ? Hf Hrest]; subst.
    change (String.concat (String sep EmptyString) (f :: g :: fields))
      with (f +:+ String sep (String.concat (String sep EmptyString)
                                (g :: fields))).
    by rewrite split_app_sep, IH.
Qed.

Lemma status_line_not_empty f g fields :
  status_line (f :: g :: fields) <> EmptyString.
Proof.
  unfold status_line.
  change (String.concat (String PyStr.TAB EmptyString) (f :: g :: fields))
    with (f +:+ String PyStr.TAB
                  (String.concat (String PyStr.TAB EmptyString) (g :: fields))).
  by destruct f.
Qed.

(** C6. For a line of eight tab-separated fields (tag, state, progress,
    speed, ETA, recovered, total, timestamp) whose progress and timestamp
    fields read as floats, whose recovered and total fields read as
    integers, and whose timestamp the host converts to a time, the parser
    returns a status whose progress is the float of field 2, whose
    recovered count is the integer of field 5 and whose total is the
    integer of field 6. In particular the line STATUS, Running, 42.5,
    1200kH/s, 00:05:00, 3, 10, 1690000000 gives progress 42.5, recovered 3
    and total 10. *)
Theorem parse_status_decodes_fields host :
  (forall tag st s2 sp ec s5 s6 s7 pr rh th t ts,
     Forall (fun f => free_of PyStr.TAB f = true)
       [tag; st; s2; sp; ec; s5; s6; s7] ->
     float s2 = Ok pr -> int s5 = Ok rh -> int s6 = Ok th ->
     float s7 = Ok t -> fromtimestamp host t = Ok ts ->
     _parse_status host (status_line [tag; st; s2; sp; ec; s5; s6; s7])
     = Ok (mkStatus st pr (sp +:+ " H/s") ec rh th ts))
  /\
  (forall ts,
     fromtimestamp host (Finite 1690000000) = Ok ts ->
     exists s,
       _parse_status host
         (status_line ["STATUS"; "Running"; "42.5"; "1200kH/s"; "00:05:00";
                       "3"; "10"; "1690000000"]) = Ok s /\
       progress s = Finite (Qred 42.5) /\
       recovered_hashes s = 3%Z /\
       total_hashes s = 10%Z).
Proof.
  assert (Hgen : forall tag st s2 sp ec s5 s6 s7 pr rh th t ts,
     Forall (fun f => free_of PyStr.TAB f = true)
       [tag; st; s2; sp; ec; s5; s6; s7] ->
     float s2 = Ok pr -> int s5 = Ok rh -> int s6 = Ok th ->
     float s7 = Ok t -> fromtimestamp host t = Ok ts ->
     _parse_status host (status_line [tag; st; s2; sp; ec; s5; s6; s7])
     = Ok (mkStatus st pr (sp +:+ " H/s") ec rh th ts)).
  { intros tag st s2 sp ec s5 s6 s7 pr rh th t ts Hfree H2 H5 H6 H7 Hts.
    pose proof (split_concat PyStr.TAB tag _ Hfree) as Hsplit.
    pose proof (status_line_not_empty tag st [s2; sp; ec; s5; s6; s7]) as Hne.
    fold (status_line [tag; st; s2; sp; ec; s5; s6; s7]) in Hsplit.
    unfold _parse_status.
    destruct (status_line [tag; st; s2; sp; ec; s5; s6; s7]) as [|c line];
      [done|].
    rewrite Hsplit. unfold getitem. simpl.
    rewrite H2. simpl. rewrite H5. simpl. rewrite H6. simpl.
    rewrite H7. simpl. by rewrite Hts. }
  split; [exact Hgen|].
  intros ts Hts. eexists. split.
  - apply (Hgen "STATUS" "Running" "42.5" "1200kH/s" "00:05:00" "3" "10"
             "1690000000" (Finite (Qred 42.5)) 3%Z 10%Z (Finite 1690000000) ts);
      [by repeat constructor|reflexivity..|exact Hts].
  - done.
Qed.

Lemma parse_status_decodes_fields_witness :
  _parse_status example_host
    (status_line ["STATUS"; "Running"; "42.5"; "1200kH/s"; "00:05:00";
                  "3"; "10"; "1690000000"])
  = Ok (mkStatus "Running" (Finite (Qred 42.5)) "1200kH/s H/s" "00:05:00"
          3%Z 10%Z (1690000000%Z : datetime example_host)).
Proof.
  apply (proj1 (parse_status_decodes_fields example_host)
           "STATUS" "Running" "42.5" "1200kH/s" "00:05:00" "3" "10"
           "1690000000" (Finite (Qred 42.5)) 3%Z 10%Z (Finite 1690000000)).
  - by repeat constructor.
  - reflexivity.
  - reflexivity.
  - reflexivity.
  - reflexivity.
  - reflexivity.
Defined.

(** ** Stopping the process *)






(** The three courses a call of [stop] on a running controller can take. *)
Example stop_child_obeys_sigterm :
  let '(w, self, r) :=
    stop (mkWorld [None; None; Some 0%Z] [])
      (mkRunner {| paths := debian_paths |}
         (Some (mkPopen ["/usr/bin/hashcat"] None Alive)) []) in
  r = Ok tt /\ log w = [Sent SIGTERM; Waited 5] /\
  child_of self = Some (Exited 0).
Proof. by vm_compute. Qed.

Example stop_child_ignores_sigterm :
  let '(w, self, r) :=
    stop (mkWorld [None; None; None; None] [])
      (mkRunner {| paths := debian_paths |}
         (Some (mkPopen ["/usr/bin/hashcat"] None Alive)) []) in
  r = Ok tt /\ log w = [Sent SIGTERM; Waited 5; Sent SIGKILL] /\
  child_of self = Some (Exited (-9)).
Proof. by vm_compute. Qed.

Example stop_child_exits_before_sigkill :
  let '(w, self, r) :=
    stop (mkWorld [None; None; None; Some 1%Z] [])
      (mkRunner {| paths := debian_paths |}
         (Some (mkPopen ["/usr/bin/hashcat"] None Alive)) []) in
  r = Ok tt /\ log w = [Sent SIGTERM; Waited 5] /\
  child_of self = Some (Exited 1).
Proof. by vm_compute. Qed.

(** ** The argument validator *)

Lemma check_arg_cases arg :
  check_arg arg
  = if bad_flag arg then Raise (Exn ValueError ("Invalid argument: " +:+ arg))
    else if bad_path arg then
      Raise (Exn ValueError ("Invalid path in argument: " +:+ arg))
    else Ok tt.
Proof.
  unfold check_arg, bad_flag, bad_path.
  destruct (PyStr.startswith "-" arg); simpl.
  - by destruct (bool_decide (arg_base arg ∈ allowed_args)).
  - by destruct (PyStr.contains ".." arg || PyStr.contains "~" arg).
Qed.

Lemma check_arg_passes arg : passes arg -> check_arg arg = Ok tt.
Proof. intros [Hf Hp]. by rewrite check_arg_cases, Hf, Hp. Qed.

Lemma validate_loop_passes first rest :
  Forall passes rest -> validate_loop first rest = Ok tt.
Proof.
  induction 1 as [|arg rest Harg _ IH]; simpl; [done|].
  destruct (String.eqb arg first); [done|].
  by rewrite check_arg_passes.
Qed.

Lemma validate_loop_rejects first pre arg post e :
  Forall passes pre -> arg <> first -> check_arg arg = Raise e ->
  validate_loop first (pre ++ arg :: post) = Raise e.
Proof.
  intros Hpre Hne Hbad. induction Hpre as [|a pre Ha _ IH]; simpl.
  - destruct (String.eqb_spec arg first); [done|]. by rewrite Hbad.
  - destruct (String.eqb a first); [done|]. by rewrite check_arg_passes.
Qed.

(** C2, as stated, fails: the validator accepts a path-like token that
    resolves outside every configured root. *)
Lemma validate_accepts_path_outside_roots :
  path_like "/etc/shadow" = true /\
  spec_resolves_inside debian_roots "/usr/bin" "/etc/shadow" = false /\
  validate_hashcat_args ["/usr/bin/hashcat"; "-m"; "0"; "/etc/shadow"]
  = Ok true.
Proof. by vm_compute. Qed.

(** It also rejects a token that resolves strictly inside a root, when
    the token holds two dots in a row. *)
Example validate_rejects_path_inside_root :
  spec_resolves_inside debian_roots "/usr/bin"
    "/usr/share/wordlists/top..1000.txt" = true /\
  validate_hashcat_args
    ["/usr/bin/hashcat"; "/usr/share/wordlists/top..1000.txt"]
  = Raise (Exn ValueError
             "Invalid path in argument: /usr/share/wordlists/top..1000.txt").
Proof. by vm_compute. Qed.

(** C2, amended. The validator looks at the text of the tokens only, and
    at no root directory. For a token list [first :: rest]: if every token
    of [rest] passes (a flag has its name before any [=] in the
    allow-list; another token holds neither [..] nor [~]) the list is
    accepted; and the first token of [rest] that does not pass, when it
    differs from [first], is rejected with a [ValueError] naming it:
    [Invalid argument] for a flag, [Invalid path in argument] otherwise.
    The empty list is accepted. The validator is a function of its
    argument and changes nothing. *)
Theorem validate_hashcat_args_checks_text first rest :
  validate_hashcat_args [] = Ok true /\
  (Forall passes rest -> validate_hashcat_args (first :: rest) = Ok true) /\
  (forall pre arg post,
     rest = pre ++ arg :: post -> Forall passes pre -> arg <> first ->
     (bad_flag arg = true ->
      validate_hashcat_args (first :: rest)
      = Raise (Exn ValueError ("Invalid argument: " +:+ arg))) /\
     (bad_flag arg = false -> bad_path arg = true ->
      validate_hashcat_args (first :: rest)
      = Raise (Exn ValueError ("Invalid path in argument: " +:+ arg)))).
Proof.
  split_and!; [done| |].
  - intros Hrest. unfold validate_hashcat_args. simpl.
    rewrite String.eqb_refl. by rewrite validate_loop_passes.
  - intros pre arg post -> Hpre Hne.
    unfold validate_hashcat_args. simpl. rewrite String.eqb_refl.
    split.
    + intros Hf.
      rewrite (validate_loop_rejects first pre arg post
                 (Exn ValueError ("Invalid argument: " +:+ arg))); [done..|].
      by rewrite check_arg_cases, Hf.
    + intros Hf Hp.
      rewrite (validate_loop_rejects first pre arg post
                 (Exn ValueError ("Invalid path in argument: " +:+ arg)));
        [done..|].
      by rewrite check_arg_cases, Hf, Hp.
Qed.

Lemma validate_hashcat_args_checks_text_witness :
  validate_hashcat_args
    ["/usr/bin/hashcat"; "-m"; "0"; "-a"; "0"; "hashes.txt"; "rockyou.txt"]
  = Ok true /\
  validate_hashcat_args
    ["/usr/bin/hashcat"; "-m"; "0"; "--outfile=/tmp/x"; "hashes.txt"]
  = Raise (Exn ValueError "Invalid argument: --outfile=/tmp/x") /\
  validate_hashcat_args
    ["/usr/bin/hashcat"; "-m"; "0"; "../../etc/shadow"]
  = Raise (Exn ValueError "Invalid path in argument: ../../etc/shadow").
Proof.
  split_and!.
  - apply (proj1 (proj2 (validate_hashcat_args_checks_text "/usr/bin/hashcat"
             ["-m"; "0"; "-a"; "0"; "hashes.txt"; "rockyou.txt"]))).
    repeat constructor.
  - apply (proj1 (proj2 (proj2 (validate_hashcat_args_checks_text
             "/usr/bin/hashcat" ["-m"; "0"; "--outfile=/tmp/x"; "hashes.txt"]))
             ["-m"; "0"] "--outfile=/tmp/x" ["hashes.txt"] eq_refl
             ltac:(repeat constructor) ltac:(discriminate))).
    reflexivity.
  - apply (proj2 (proj2 (proj2 (validate_hashcat_args_checks_text
             "/usr/bin/hashcat" ["-m"; "0"; "../../etc/shadow"]))
             ["-m"; "0"] "../../etc/shadow" [] eq_refl
             ltac:(repeat constructor) ltac:(discriminate))).
    + reflexivity.
    + reflexivity.
Defined.

(** * Further properties of the code *)

(** ** The command builder and [start] *)

(** A build in attack mode 0 with a wordlist and a rule ends in the
    wordlist followed by [-r] and the rule. *)
Theorem build_command_wordlist_with_rule host self hash_type hash_file
    wordlist rule mask :
  validated (config self) ->
  wordlist <> EmptyString -> rule <> EmptyString ->
  exists hashcat potfile,
    paths (config self) !! "hashcat" = Some hashcat /\
    paths (config self) !! "potfile" = Some potfile /\
    let cmd := fixed_tokens (as_path host hashcat) (as_path host potfile)
                 hash_type 0 hash_file ++ [wordlist; "-r"; rule] in
    build_command host self hash_type hash_file 0
      (Some wordlist) (Some rule) mask
    = (set_command self cmd, Ok cmd).
Proof.
  intros Hv Hw Hr.
  destruct (base_command_validated host self hash_type hash_file 0 Hv)
    as (hc & pf & Hhc & Hpf & Hbase).
  exists hc, pf. split_and!; [done..|]. intros cmd.
  rewrite (build_command_unfold _ _ _ _ _ _ _ _ _ Hbase).
  unfold attack_parameters. simpl.
  destruct wordlist as [|c w]; [done|]. destruct rule as [|c' r]; [done|].
  reflexivity.
Qed.

Lemma build_command_wordlist_with_rule_witness :
  exists hashcat potfile,
    debian_paths !! "hashcat" = Some hashcat /\
    debian_paths !! "potfile" = Some potfile /\
    build_command example_host (new_runner {| paths := debian_paths |})
      0 "hashes.txt" 0 (Some "rockyou.txt") (Some "best64.rule") None
    = (set_command (new_runner {| paths := debian_paths |})
         (fixed_tokens (as_path example_host hashcat)
            (as_path example_host potfile) 0 0 "hashes.txt"
          ++ ["rockyou.txt"; "-r"; "best64.rule"]),
       Ok (fixed_tokens (as_path example_host hashcat)
             (as_path example_host potfile) 0 0 "hashes.txt"
           ++ ["rockyou.txt"; "-r"; "best64.rule"])).
Proof.
  apply (build_command_wordlist_with_rule example_host
           (new_runner {| paths := debian_paths |}) 0 "hashes.txt"
           "rockyou.txt" "best64.rule" None).
  - repeat constructor; by eexists.
  - discriminate.
  - discriminate.
Defined.

(** A build in attack mode 3 with a mask ends in the mask; a wordlist and
    a rule given along with it are ignored. *)
Theorem build_command_mask host self hash_type hash_file wordlist rule mask :
  validated (config self) ->
  mask <> EmptyString ->
  exists hashcat potfile,
    paths (config self) !! "hashcat" = Some hashcat /\
    paths (config self) !! "potfile" = Some potfile /\
    let cmd := fixed_tokens (as_path host hashcat) (as_path host potfile)
                 hash_type 3 hash_file ++ [mask] in
    build_command host self hash_type hash_file 3 wordlist rule (Some mask)
    = (set_command self cmd, Ok cmd).
Proof.
  intros Hv Hm.
  destruct (base_command_validated host self hash_type hash_file 3 Hv)
    as (hc & pf & Hhc & Hpf & Hbase).
  exists hc, pf. split_and!; [done..|]. intros cmd.
  rewrite (build_command_unfold _ _ _ _ _ _ _ _ _ Hbase).
  unfold attack_parameters. simpl. by destruct mask.
Qed.

Lemma build_command_mask_witness :
  exists hashcat potfile,
    debian_paths !! "hashcat" = Some hashcat /\
    debian_paths !! "potfile" = Some potfile /\
    build_command example_host (new_runner {| paths := debian_paths |})
      1000 "ntlm.txt" 3 (Some "rockyou.txt") (Some "best64.rule")
      (Some "?d?d?d?d")
    = (set_command (new_runner {| paths := debian_paths |})
         (fixed_tokens (as_path example_host hashcat)
            (as_path example_host potfile) 1000 3 "ntlm.txt" ++ ["?d?d?d?d"]),
       Ok (fixed_tokens (as_path example_host hashcat)
             (as_path example_host potfile) 1000 3 "ntlm.txt"
           ++ ["?d?d?d?d"])).
Proof.
  apply (build_command_mask example_host
           (new_runner {| paths := debian_paths |}) 1000 "ntlm.txt"
           (Some "rockyou.txt") (Some "best64.rule") "?d?d?d?d").
  - repeat constructor; by eexists.
  - discriminate.
Defined.

(** A build that succeeds stores what it returns, never the empty list,
    and touches nothing else of the runner. *)
Lemma build_command_ok_inv host self hash_type hash_file attack_mode
    wordlist rule mask self' cmd :
  build_command host self hash_type hash_file attack_mode wordlist rule mask
  = (self', Ok cmd) ->
  self' = set_command self cmd /\ cmd <> [].
Proof.
  unfold build_command, base_command.
  destruct (get_path host (config self) "hashcat") as [hc|]; simpl;
    [|discriminate].
  destruct (get_path host (config self) "potfile") as [pf|]; simpl;
    [|discriminate].
  unfold attack_parameters.
  destruct (attack_mode =? 0)%Z.
  - destruct (truthy wordlist); simpl; [|discriminate].
    destruct (truthy rule); simpl; intros [= <- <-]; done.
  - destruct (attack_mode =? 3)%Z.
    + destruct (truthy mask); simpl; [|discriminate].
      intros [= <- <-]; done.
    + simpl. intros [= <- <-]; done.
Qed.

(** After a build that succeeded, a build that fails for a missing
    wordlist leaves the earlier command in the runner, and [start] then
    runs that earlier command. *)
Theorem failed_build_keeps_earlier_command host self
    hash_type hash_file attack_mode wordlist rule mask self1 cmd1
    hash_type' hash_file' wordlist' rule' mask' popen p :
  validated (config self) ->
  build_command host self hash_type hash_file attack_mode wordlist rule mask
  = (self1, Ok cmd1) ->
  truthy wordlist' = false ->
  popen cmd1 = Ok p ->
  build_command host self1 hash_type' hash_file' 0 wordlist' rule' mask'
  = (self1, Raise (Exn CommandError "Wordlist required for attack mode 0"))
  /\ command self1 = cmd1
  /\ start popen self1 = (set_process self1 p, Ok tt).
Proof.
  intros Hv Hbuild Hw Hp.
  apply build_command_ok_inv in Hbuild as [-> Hne].
  assert (Hv1 : validated (config (set_command self cmd1))) by done.
  destruct (base_command_validated host (set_command self cmd1)
              hash_type' hash_file' 0 Hv1) as (hc & pf & _ & _ & Hbase).
  split_and!.
  - rewrite (build_command_unfold _ _ _ _ _ _ _ _ _ Hbase).
    unfold attack_parameters. simpl. by rewrite Hw.
  - done.
  - unfold start. simpl. destruct cmd1 as [|tok cmd1]; [done|].
    by rewrite Hp.
Qed.

Lemma failed_build_keeps_earlier_command_witness :
  exists self1 cmd1,
    build_command example_host (new_runner {| paths := debian_paths |})
      0 "hashes.txt" 3 None None (Some "?d?d")
    = (self1, Ok cmd1) /\
    build_command example_host self1 100 "sha1.txt" 0 None None None
    = (self1, Raise (Exn CommandError "Wordlist required for attack mode 0"))
    /\ command self1 = cmd1
    /\ start (fun cmd => Ok (mkPopen cmd None Alive)) self1
       = (set_process self1 (mkPopen cmd1 None Alive), Ok tt).
Proof.
  eexists _, _. split; [reflexivity|].
  eapply (failed_build_keeps_earlier_command example_host
            (new_runner {| paths := debian_paths |})
            0 "hashes.txt" 3 None None (Some "?d?d") _ _
            100 "sha1.txt" None None None
            (fun cmd => Ok (mkPopen cmd None Alive))).
  - repeat constructor; by eexists.
  - reflexivity.
  - reflexivity.
  - reflexivity.
Defined.

(** What [start] does, case by case: without a built command it raises
    [CommandError] whatever the host would do; a process object returned
    by the spawn is installed; an exception of class
    [subprocess.SubprocessError] is replaced by [ExecutionError] built
    from it; any other exception goes through as it is. The runner
    changes only in the second case. *)
Theorem start_outcomes popen self :
  (command self = [] ->
   start popen self
   = (self, Raise (Exn CommandError
                     "Command not built. Call build_command first."))) /\
  (command self <> [] ->
   (forall p, popen (command self) = Ok p ->
      start popen self = (set_process self p, Ok tt)) /\
   (forall e, popen (command self) = Raise e ->
      isinstance e [SubprocessError] = true ->
      start popen self
      = (self, Raise (ExnFrom ExecutionError "Failed to start hashcat: " e)))
   /\
   (forall e, popen (command self) = Raise e ->
      isinstance e [SubprocessError] = false ->
      start popen self = (self, Raise e))).
Proof.
  unfold start. split.
  - by intros ->.
  - intros Hne. destruct (command self) as [|tok cmd]; [done|].
    split_and!.
    + by intros p ->.
    + intros e -> He. unfold try_except. by rewrite He.
    + intros e -> He. unfold try_except. by rewrite He.
Qed.

Lemma start_outcomes_witness :
  start (fun _ => Raise (Builtin TimeoutExpired))
    (mkRunner {| paths := debian_paths |} None ["/usr/bin/hashcat"])
  = (mkRunner {| paths := debian_paths |} None ["/usr/bin/hashcat"],
     Raise (ExnFrom ExecutionError "Failed to start hashcat: "
              (Builtin TimeoutExpired))).
Proof.
  apply (proj1 (proj2 (proj2 (start_outcomes
           (fun _ => Raise (Builtin TimeoutExpired))
           (mkRunner {| paths := debian_paths |} None ["/usr/bin/hashcat"]))
           ltac:(discriminate)))
           (Builtin TimeoutExpired)); reflexivity.
Defined.

(** ** Construction and [get_status] *)

(** A runner that [HashcatRunner(config)] returns has a binary that
    exists and is executable at the configured path, holds no process
    and no command; so [start] on it raises [CommandError], [stop] does
    nothing and [get_results] is empty. *)
Theorem init_gives_idle_runner host path_exists executable cfg self :
  init host path_exists executable cfg = Ok self ->
  (exists hashcat, paths cfg !! "hashcat" = Some hashcat /\
     path_exists (as_path host hashcat) = true /\
     executable (as_path host hashcat) = true) /\
  self = new_runner cfg /\
  (forall popen, exists e,
     start popen self = (self, Raise e) /\ class_of e = CommandError) /\
  (forall w, stop w self = (w, self, Ok tt)) /\
  (forall fs, get_results host fs self = Ok ∅).
Proof.
  unfold init, _validate_hashcat_binary, get_path. simpl.
  destruct (paths cfg !! "hashcat") as [hc|] eqn:Hhc; simpl; [|discriminate].
  destruct (path_exists (as_path host hc)) eqn:Hex; simpl; [|discriminate].
  destruct (executable (as_path host hc)) eqn:Hx; simpl; [|discriminate].
  intros [= <-]. split_and!; eauto.
Qed.

Lemma init_gives_idle_runner_witness :
  get_results example_host ∅ (new_runner {| paths := debian_paths |}) = Ok ∅.
Proof.
  destruct (init_gives_idle_runner example_host (fun _ => true)
              (fun _ => true) {| paths := debian_paths |}
              (new_runner {| paths := debian_paths |})
              ltac:(reflexivity)) as (_ & _ & _ & _ & H).
  exact (H ∅).
Defined.

(** Construction fails with [HashcatError] when the binary is missing
    or not executable, and with [KeyError] when no binary is configured. *)
Theorem init_failures host path_exists executable cfg :
  (paths cfg !! "hashcat" = None ->
   exists e, init host path_exists executable cfg = Raise e /\
             class_of e = KeyError) /\
  (forall hashcat, paths cfg !! "hashcat" = Some hashcat ->
     path_exists (as_path host hashcat) && executable (as_path host hashcat)
     = false ->
     exists e, init host path_exists executable cfg = Raise e /\
               class_of e = HashcatError).
Proof.
  unfold init, _validate_hashcat_binary, get_path. simpl. split.
  - intros ->. simpl. eauto.
  - intros hc -> H. simpl.
    destruct (path_exists (as_path host hc)); simpl; [|eauto].
    destruct (executable (as_path host hc)); simpl; [done|eauto].
Qed.

Lemma init_failures_witness :
  exists e, init example_host (fun _ => false) (fun _ => true)
              {| paths := debian_paths |} = Raise e /\
            class_of e = HashcatError.
Proof.
  apply (proj2 (init_failures example_host (fun _ => false) (fun _ => true)
                  {| paths := debian_paths |}) "/usr/bin/hashcat");
    reflexivity.
Defined.

Lemma latest_status_none stdout : forall s,
  Forall (fun l => PyStr.startswith "STATUS" l = false) stdout ->
  latest_status s stdout = s.
Proof.
  induction stdout as [|l rest IH]; intros s H; [done|].
  inversion H as [|? ? Hl Hrest]; subst. simpl.
  destruct l; [done|]. rewrite Hl. by apply IH.
Qed.

Lemma latest_status_app before : forall s after,
  Forall (fun l => nonempty l = true) before ->
  latest_status s (before ++ after)
  = latest_status (latest_status s before) after.
Proof.
  induction before as [|l rest IH]; intros s after H; [done|].
  inversion H as [|? ? Hl Hrest]; subst. simpl.
  destruct l; [done|]. by apply IH.
Qed.

(** Of the output lines read, the last one that starts with [STATUS]
    is the one parsed; earlier ones are superseded. Without any such
    line the empty line is parsed. *)
Lemma latest_status_last before line after s :
  Forall (fun l => nonempty l = true) before ->
  PyStr.startswith "STATUS" line = true ->
  Forall (fun l => PyStr.startswith "STATUS" l = false) after ->
  latest_status s (before ++ line :: after) = line.
Proof.
  intros Hb Hl Ha. rewrite latest_status_app by done. simpl.
  destruct line; [done|]. rewrite Hl. by apply latest_status_none.
Qed.

(** [get_status] on a running process whose child does not exit before
    it is looked at: the status is parsed from the last output line that
    starts with [STATUS]; when no line does, the status is the default
    one, running at zero percent. *)
Theorem get_status_uses_last_status_line host w self stdout :
  state_of self = Running ->
  head (future w) = None \/ head (future w) = Some None ->
  exists w' self',
    state_of self' = Running /\
    (forall before line after,
       stdout = before ++ line :: after ->
       Forall (fun l => nonempty l = true) before ->
       PyStr.startswith "STATUS" line = true ->
       Forall (fun l => PyStr.startswith "STATUS" l = false) after ->
       get_status host w self stdout = (w', self', _parse_status host line))
    /\
    (Forall (fun l => PyStr.startswith "STATUS" l = false) stdout ->
     get_status host w self stdout
     = (w', self',
        Ok (mkStatus "Running" (float_of_Z 0) "0 H/s" EmptyString 0%Z 0%Z
              (now host)))).
Proof.
  destruct self as [cfg [[a [c|] [|code]]|] cmd], w as [fut lg];
    unfold state_of; simpl; intros Hs Hfut; try done.
  unfold get_status, poll, observe. simpl.
  exists (mkWorld (tail fut) lg), (mkRunner cfg (Some (mkPopen a None Alive)) cmd).
  destruct fut as [|[c|] fut]; simpl in *;
    try (destruct Hfut; discriminate);
    (split_and!; [reflexivity| |]).
  - intros before line after -> Hb Hl Ha.
    by rewrite latest_status_last.
  - intros Hnone. by rewrite latest_status_none.
  - intros before line after -> Hb Hl Ha.
    by rewrite latest_status_last.
  - intros Hnone. by rewrite latest_status_none.
Qed.

Lemma get_status_uses_last_status_line_witness :
  exists w' self',
    get_status example_host (mkWorld [] [])
      (mkRunner {| paths := debian_paths |}
         (Some (mkPopen ["/usr/bin/hashcat"] None Alive)) ["/usr/bin/hashcat"])
      ["Session started"; "Dictionary cache hit"]
    = (w', self',
       Ok (mkStatus "Running" (float_of_Z 0) "0 H/s" EmptyString 0%Z 0%Z
             (now example_host))).
Proof.
  destruct (get_status_uses_last_status_line example_host (mkWorld [] [])
              (mkRunner {| paths := debian_paths |}
                 (Some (mkPopen ["/usr/bin/hashcat"] None Alive))
                 ["/usr/bin/hashcat"])
              ["Session started"; "Dictionary cache hit"]
              eq_refl (or_introl eq_refl))
    as (w' & self' & _ & _ & H).
  exists w', self'. apply H. by repeat constructor.
Defined.

(** [get_status] on a process that has exited never looks at its
    output: the status is [Finished] at 100 percent for exit code 0 and
    [Failed] at 0 percent otherwise, with both counts 0, whatever the
    process printed. *)
Theorem get_status_after_exit host w self stdout p code :
  process self = Some p ->
  returncode p = Some code \/ (returncode p = None /\ child p = Exited code) ->
  exists w' self' s,
    get_status host w self stdout = (w', self', Ok s) /\
    log w' = log w /\
    status s = (if (code =? 0)%Z then "Finished" else "Failed") /\
    progress s = float_of_Z (if (code =? 0)%Z then 100 else 0) /\
    recovered_hashes s = 0%Z /\ total_hashes s = 0%Z.
Proof.
  intros Hp Hcode. unfold get_status, poll, observe. rewrite Hp.
  destruct p as [a rc ch]. simpl in *.
  destruct Hcode as [->|[-> ->]].
  - eexists _, _, _. split_and!; reflexivity.
  - destruct w as [[|o fut] lg]; simpl;
      eexists _, _, _; split_and!; reflexivity.
Qed.

Lemma get_status_after_exit_witness :
  exists w' self' s,
    get_status example_host (mkWorld [] [])
      (mkRunner {| paths := debian_paths |}
         (Some (mkPopen ["/usr/bin/hashcat"] None (Exited 1)))
         ["/usr/bin/hashcat"])
      ["STATUS"] = (w', self', Ok s) /\
    log w' = [] /\
    status s = "Failed" /\
    progress s = float_of_Z 0 /\
    recovered_hashes s = 0%Z /\ total_hashes s = 0%Z.
Proof.
  apply (get_status_after_exit example_host (mkWorld [] [])
           (mkRunner {| paths := debian_paths |}
              (Some (mkPopen ["/usr/bin/hashcat"] None (Exited 1)))
              ["/usr/bin/hashcat"])
           ["STATUS"] (mkPopen ["/usr/bin/hashcat"] None (Exited 1)) 1%Z).
  - reflexivity.
  - right. split; reflexivity.
Defined.

(** ** More on the status parser *)

Lemma float_error s e : float s = Raise e -> e = Builtin ValueError.
Proof.
  unfold float. destruct (sign (PyStr.strip s)) as [neg s1].
  destruct (String.eqb (lowercase s1) "inf" || String.eqb (lowercase s1) "infinity");
    [discriminate|].
  destruct (String.eqb (lowercase s1) "nan"); [discriminate|].
  destruct (decimal s1); [discriminate|]. by intros [= <-].
Qed.

Lemma int_error s e : int s = Raise e -> e = Builtin ValueError.
Proof.
  unfold int. destruct (sign (PyStr.strip s)) as [neg s1].
  destruct (digitpart s1) as [[ds [|c r]]|]; try discriminate;
    by intros [= <-].
Qed.

(** A status line with fewer than eight tab-separated fields is refused
    with [HashcatError], built from the [IndexError] or [ValueError]
    that stopped the decoding. *)
Theorem parse_status_too_few_fields host line :
  line <> EmptyString ->
  length (PyStr.split PyStr.TAB line) < 8 ->
  exists e,
    _parse_status host line
    = Raise (ExnFrom HashcatError "Failed to parse status: " e) /\
    (e = Builtin IndexError \/ e = Builtin ValueError).
Proof.
  intros Hne Hlen. unfold _parse_status.
  destruct line as [|c line]; [done|].
  destruct (PyStr.split PyStr.TAB (String c line))
    as [|f0 [|f1 [|f2 [|f3 [|f4 [|f5 [|f6 [|f7 more]]]]]]]];
    simpl in Hlen; try lia; unfold getitem; simpl;
    repeat match goal with
    | |- context [float ?s] =>
        let E := fresh "E" in
        destruct (float s) eqn:E; [|apply float_error in E; subst]; simpl
    | |- context [int ?s] =>
        let E := fresh "E" in
        destruct (int s) eqn:E; [|apply int_error in E; subst]; simpl
    end; eauto.
Qed.

Lemma parse_status_too_few_fields_witness :
  exists e,
    _parse_status example_host (status_line ["STATUS"; "Running"; "42.5"])
    = Raise (ExnFrom HashcatError "Failed to parse status: " e) /\
    (e = Builtin IndexError \/ e = Builtin ValueError).
Proof.
  apply (parse_status_too_few_fields example_host
           (status_line ["STATUS"; "Running"; "42.5"])).
  - discriminate.
  - vm_compute. lia.
Defined.

Lemma float_line s :
  float (s +:+ String PyStr.LF EmptyString) = float s.
Proof. unfold float. by rewrite strip_line. Qed.

Lemma free_of_app sep a b :
  free_of sep (a +:+ b) = free_of sep a && free_of sep b.
Proof.
  induction a as [|c a IH]; [done|].
  change (String c a +:+ b) with (String c (a +:+ b)). simpl.
  rewrite IH. by destruct (Ascii.eqb c sep).
Qed.

Lemma status_line_newline fields f :
  status_line (fields ++ [f]) +:+ String PyStr.LF EmptyString
  = status_line (fields ++ [f +:+ String PyStr.LF EmptyString]).
Proof.
  unfold status_line. induction fields as [|g fields IH]; [done|].
  destruct fields as [|h fields].
  - simpl. by rewrite str_app_assoc.
  - change (String.concat (String PyStr.TAB EmptyString)
              ((g :: h :: fields) ++ [f]))
      with (g +:+ String PyStr.TAB
              (String.concat (String PyStr.TAB EmptyString)
                 ((h :: fields) ++ [f]))).
    rewrite str_app_assoc.
    change (String PyStr.TAB ?x +:+ ?y) with (String PyStr.TAB (x +:+ y)).
    by rewrite IH.
Qed.

(** The decoding of a line whose first eight fields are given, whatever
    follows them. *)
Lemma parse_status_parts host line tag st s2 sp ec s5 s6 s7 more pr rh th t ts :
  line <> EmptyString ->
  PyStr.split PyStr.TAB line = tag :: st :: s2 :: sp :: ec :: s5 :: s6 :: s7 :: more ->
  float s2 = Ok pr -> int s5 = Ok rh -> int s6 = Ok th ->
  float s7 = Ok t -> fromtimestamp host t = Ok ts ->
  _parse_status host line = Ok (mkStatus st pr (sp +:+ " H/s") ec rh th ts).
Proof.
  intros Hne Hsplit H2 H5 H6 H7 Hts. unfold _parse_status.
  destruct line as [|c line]; [done|].
  rewrite Hsplit. unfold getitem. simpl.
  rewrite H2. simpl. rewrite H5. simpl. rewrite H6. simpl.
  rewrite H7. simpl. by rewrite Hts.
Qed.

(** The parser does not count the fields: fields after the eighth are
    ignored, and the line terminator that [readline] leaves at the end
    of the line does no harm. *)
Theorem parse_status_tolerates_extra host tag st s2 sp ec s5 s6 s7 more
    pr rh th t ts :
  Forall (fun f => free_of PyStr.TAB f = true)
    ([tag; st; s2; sp; ec; s5; s6; s7] ++ more) ->
  float s2 = Ok pr -> int s5 = Ok rh -> int s6 = Ok th ->
  float s7 = Ok t -> fromtimestamp host t = Ok ts ->
  _parse_status host (status_line ([tag; st; s2; sp; ec; s5; s6; s7] ++ more))
  = Ok (mkStatus st pr (sp +:+ " H/s") ec rh th ts) /\
  _parse_status host
    (status_line [tag; st; s2; sp; ec; s5; s6; s7]
     +:+ String PyStr.LF EmptyString)
  = Ok (mkStatus st pr (sp +:+ " H/s") ec rh th ts).
Proof.
  intros Hfree H2 H5 H6 H7 Hts. split.
  - apply (parse_status_parts host _ tag st s2 sp ec s5 s6 s7 more pr rh th t);
      try done.
    + apply status_line_not_empty.
    + apply (split_concat PyStr.TAB tag), Hfree.
  - change (status_line [tag; st; s2; sp; ec; s5; s6; s7])
      with (status_line ([tag; st; s2; sp; ec; s5; s6] ++ [s7])).
    rewrite (status_line_newline [tag; st; s2; sp; ec; s5; s6] s7).
    change ([tag; st; s2; sp; ec; s5; s6]
            ++ [s7 +:+ String PyStr.LF EmptyString])
      with ([tag; st; s2; sp; ec; s5; s6;
             s7 +:+ String PyStr.LF EmptyString]).
    apply (parse_status_parts host _ tag st s2 sp ec s5 s6
             (s7 +:+ String PyStr.LF EmptyString) [] pr rh th t); try done.
    + apply status_line_not_empty.
    + apply (split_concat PyStr.TAB tag).
      apply Forall_app in Hfree as [Hfree _].
      repeat (apply Forall_cons in Hfree as [? Hfree]).
      repeat (apply Forall_cons; split; [done|]).
      apply Forall_cons; split; [|done].
      rewrite free_of_app. by apply andb_true_iff.
    + by rewrite float_line.
Qed.

Lemma parse_status_tolerates_extra_witness :
  _parse_status example_host
    (status_line (["STATUS"; "Running"; "42.5"; "1200kH/s"; "00:05:00";
                   "3"; "10"; "1690000000"] ++ ["extra"; "fields"]))
  = Ok (mkStatus "Running" (Finite (Qred 42.5)) "1200kH/s H/s" "00:05:00"
          3%Z 10%Z (1690000000%Z : datetime example_host)).
Proof.
  apply (proj1 (parse_status_tolerates_extra example_host
           "STATUS" "Running" "42.5" "1200kH/s" "00:05:00" "3" "10"
           "1690000000" ["extra"; "fields"]
           (Finite (Qred 42.5)) 3%Z 10%Z (Finite 1690000000) 1690000000%Z
           ltac:(by repeat constructor) eq_refl eq_refl eq_refl eq_refl
           eq_refl)).
Defined.

(** ** More on the results reader *)

Lemma results_line_entry results line :
  results_line results line
  = Ok (match entry_of line with
        | Some (h, p) => <[h := p]> results
        | None => results
        end).
Proof.
  unfold results_line, entry_of.
  by destruct (PyStr.split ":" (PyStr.strip line)) as [|a [|b [|c l]]].
Qed.

(** The mapping read from the lines of a potfile: for every hash, the
    password of the last line that is a record for it, and what the
    mapping held before when there is no such line. Later records
    replace earlier ones. *)
Lemma results_loop_lookup lines : forall results,
  exists m,
    results_loop results lines = Ok m /\
    forall hash_val,
      m !! hash_val
      = match last_password hash_val lines with
        | Some p => Some p
        | None => results !! hash_val
        end.
Proof.
  induction lines as [|line rest IH]; intros results.
  - exists results. by split.
  - simpl. rewrite results_line_entry. simpl.
    destruct (IH (match entry_of line with
                  | Some (h, p) => <[h := p]> results
                  | None => results
                  end)) as (m & -> & Hm).
    exists m. split; [done|]. intros hv. rewrite Hm.
    unfold last_password. simpl.
    destruct (entry_of line) as [[h p]|].
    + destruct (String.eqb_spec h hv) as [->|Hne].
      * rewrite last_cons. rewrite lookup_insert_eq.
        by destruct (last _).
      * by rewrite lookup_insert_ne.
    + done.
Qed.

(** [get_results] on a runner with a process and an existing potfile:
    the mapping holds, for every hash, the password of the last record
    for it in the file, and nothing for a hash without a record. *)
Theorem get_results_reads_last_records host fs self p potfile content :
  process self = Some p ->
  paths (config self) !! "potfile" = Some potfile ->
  fs !! as_path host potfile = Some content ->
  exists m,
    get_results host fs self = Ok m /\
    forall hash_val,
      m !! hash_val
      = last_password hash_val
          (PyStr.keepends (PyStr.universal_newlines content)).
Proof.
  intros Hp Hpot Hfs. unfold get_results, get_path. rewrite Hp, Hpot. simpl.
  rewrite Hfs.
  destruct (results_loop_lookup
              (PyStr.keepends (PyStr.universal_newlines content)) ∅)
    as (m & -> & Hm).
  exists m. split; [done|]. intros hv. rewrite Hm, lookup_empty.
  by destruct (last_password _ _).
Qed.

Lemma get_results_reads_last_records_witness :
  exists m,
    get_results example_host
      {[ "/home/user/.hashcat/hashcat.potfile" :=
           joined ["8743b52063cd84097a65d1633f5c74f5:hashcat";
                   "not a record";
                   "8743b52063cd84097a65d1633f5c74f5:hashcat2"] ]}
      (mkRunner {| paths := debian_paths |}
         (Some (mkPopen ["/usr/bin/hashcat"] None Alive)) ["/usr/bin/hashcat"])
    = Ok m /\
    m !! "8743b52063cd84097a65d1633f5c74f5" = Some "hashcat2".
Proof.
  edestruct (get_results_reads_last_records example_host
               {[ "/home/user/.hashcat/hashcat.potfile" :=
                    joined ["8743b52063cd84097a65d1633f5c74f5:hashcat";
                            "not a record";
                            "8743b52063cd84097a65d1633f5c74f5:hashcat2"] ]}
               (mkRunner {| paths := debian_paths |}
                  (Some (mkPopen ["/usr/bin/hashcat"] None Alive))
                  ["/usr/bin/hashcat"])
               (mkPopen ["/usr/bin/hashcat"] None Alive)
               "~/.hashcat/hashcat.potfile") as (m & Hm & Hlookup).
  - reflexivity.
  - reflexivity.
  - vm_compute. reflexivity.
  - exists m. split; [exact Hm|]. rewrite Hlookup. reflexivity.
Defined.

Lemma split_parts_free sep s :
  Forall (fun part => free_of sep part = true) (PyStr.split sep s).
Proof.
  induction s as [|c s IH]; [by repeat constructor|].
  rewrite split_cons. destruct (Ascii.eqb c sep) eqn:Hc.
  - by constructor.
  - destruct (PyStr.split sep s) as [|h t]; [by repeat constructor; simpl; rewrite Hc|].
    inversion IH; subst. constructor; [|done]. simpl. by rewrite Hc.
Qed.

Lemma entry_of_free line h p :
  entry_of line = Some (h, p) ->
  free_of ":" h = true /\ free_of ":" p = true.
Proof.
  unfold entry_of. pose proof (split_parts_free ":" (PyStr.strip line)) as H.
  destruct (PyStr.split ":" (PyStr.strip line)) as [|a [|b [|c l]]];
    try discriminate.
  intros [= <- <-]. inversion H as [|? ? Ha Hb]; subst.
  by inversion Hb.
Qed.

(** No hash and no password in the mapping read from a potfile holds a
    colon: a line with a second colon, as for a salted hash or a
    password with a colon in it, is not a record and is left out. *)
Theorem results_hold_no_colon lines m :
  results_loop ∅ lines = Ok m ->
  forall hash_val password,
    m !! hash_val = Some password ->
    free_of ":" hash_val = true /\ free_of ":" password = true.
Proof.
  intros Hloop hv pw Hlookup.
  destruct (results_loop_lookup lines ∅) as (m' & Hm' & Hlast).
  rewrite Hloop in Hm'. injection Hm' as <-.
  rewrite Hlast, lookup_empty in Hlookup.
  destruct (last_password hv lines) as [p|] eqn:Hp; [|done].
  injection Hlookup as ->.
  unfold last_password in Hp. apply last_Some_elem_of in Hp.
  apply list_elem_of_omap in Hp as (line & _ & Hline).
  destruct (entry_of line) as [[h p]|] eqn:He; [|done].
  destruct (String.eqb_spec h hv) as [->|]; [|done].
  injection Hline as ->. by apply (entry_of_free line).
Qed.

Lemma results_hold_no_colon_witness :
  free_of ":" "8743b52063cd84097a65d1633f5c74f5" = true /\
  free_of ":" "hashcat" = true.
Proof.
  apply (results_hold_no_colon
           ["8743b52063cd84097a65d1633f5c74f5:hashcat";
            "1a2b3c:salt:password"]
           {[ "8743b52063cd84097a65d1633f5c74f5" := "hashcat" ]}).
  - reflexivity.
  - apply lookup_singleton_eq.
Defined.

(** ** More on the potfile monitor *)

(** Once [stop()] has been called on a monitor that is at the head of
    its loop, the monitor makes no callback call any more and its cursor
    stays where it is, whatever is appended afterwards. *)
Theorem monitor_stop_is_final t schedule :
  pc t = AtLoopHead ->
  let t' := run (step t StopRequested) schedule in
  emitted t' = emitted t /\
  last_position (monitor t') = last_position (monitor t) /\
  last_size (monitor t') = last_size (monitor t) /\
  _stop (monitor t') = true.
Proof.
  intros Hpc.
  assert (H : forall s u, pc u = AtLoopHead -> _stop (monitor u) = true ->
            emitted (run u s) = emitted u /\
            last_position (monitor (run u s)) = last_position (monitor u) /\
            last_size (monitor (run u s)) = last_size (monitor u) /\
            _stop (monitor (run u s)) = true).
  { induction s as [|e s IH]; intros u Hu Hstop; [done|].
    simpl. destruct e as [p l| |]; simpl.
    - by destruct (IH (mkTailing (append_line p l (fs u)) (monitor u) (pc u)
                         (emitted u)) Hu Hstop) as (? & ? & ? & ?).
    - unfold monitor_step. rewrite Hu, Hstop. by apply IH.
    - by destruct (IH (mkTailing (fs u)
                         (mkMonitor (potfile_path (monitor u))
                            (last_position (monitor u))
                            (last_size (monitor u)) true)
                         (pc u) (emitted u)) Hu eq_refl) as (? & ? & ? & ?). }
  by destruct (H schedule (step t StopRequested) Hpc eq_refl)
    as (? & ? & ? & ?).
Qed.

Lemma monitor_stop_is_final_witness :
  emitted (run (step (tailing ∅ "hashcat.potfile") StopRequested)
             [Append "hashcat.potfile" "a:b"; MonitorStep; MonitorStep])
  = [].
Proof.
  apply (monitor_stop_is_final (tailing ∅ "hashcat.potfile")
           [Append "hashcat.potfile" "a:b"; MonitorStep; MonitorStep]).
  reflexivity.
Defined.



(** ** More on the argument validator *)

Lemma validate_loop_skips_first first pre post :
  validate_loop first (pre ++ first :: post)
  = validate_loop first (pre ++ post).
Proof.
  induction pre as [|a pre IH]; simpl.
  - by rewrite String.eqb_refl.
  - destruct (String.eqb a first); [done|].
    destruct (check_arg a); simpl; [done|done].
Qed.

(** A token with the same text as the first token is never checked,
    wherever it stands: taking such a token out of the list, or putting
    one in, does not change the verdict. *)
Theorem validate_ignores_copies_of_first_token first pre post :
  validate_hashcat_args (first :: pre ++ first :: post)
  = validate_hashcat_args (first :: pre ++ post).
Proof.
  unfold validate_hashcat_args.
  change (first :: pre ++ first :: post)
    with ((first :: pre) ++ first :: post).
  rewrite validate_loop_skips_first. done.
Qed.

Lemma validate_loop_cons first arg rest :
  validate_loop first (arg :: rest)
  = if String.eqb arg first then validate_loop first rest
    else _ ← check_arg arg; validate_loop first rest.
Proof. reflexivity. Qed.

Lemma startswith_app c f x :
  PyStr.startswith (String c EmptyString) (String c f +:+ x) = true.
Proof.
  unfold PyStr.startswith.
  change (String c f +:+ x) with (String c (f +:+ x)). simpl.
  destruct (ascii_dec c c); [|congruence]. by destruct (f +:+ x).
Qed.

Lemma contains_separator c a b :
  PyStr.contains (String c EmptyString) (a +:+ String c b) = true.
Proof.
  induction a as [|x a IH].
  - change (EmptyString +:+ String c b) with (String c b). simpl.
    destruct (ascii_dec c c); [|congruence]. by destruct b.
  - change (String x a +:+ String c b) with (String x (a +:+ String c b)).
    change (PyStr.contains (String c EmptyString)
              (String x (a +:+ String c b)))
      with (String.prefix (String c EmptyString)
              (String x (a +:+ String c b))
            || PyStr.contains (String c EmptyString) (a +:+ String c b)).
    rewrite IH. apply orb_true_r.
Qed.

Lemma arg_base_of_assignment flag value :
  free_of "=" flag = true ->
  arg_base (flag +:+ String "=" value) = flag.
Proof.
  intros Hfree. unfold arg_base.
  by rewrite contains_separator, split_app_sep.
Qed.

Lemma allowed_args_shape flag :
  flag ∈ allowed_args ->
  free_of "=" flag = true /\ exists f, flag = String "-" f.
Proof.
  unfold allowed_args. rewrite !elem_of_union, !elem_of_singleton.
  intros H. repeat destruct H as [H|H]; subst; split; by eauto.
Qed.

(** The value given to an allowed flag after [=] is never looked at: for
    every flag of the allow-list and every text, the token
    [flag=text] is accepted, also when the text is a path with [..] or
    [~] in it. *)
Theorem validate_accepts_any_value_after_equals first flag value :
  flag ∈ allowed_args ->
  validate_hashcat_args [first; flag +:+ String "=" value] = Ok true.
Proof.
  intros Hflag. pose proof Hflag as (Hfree & f & ->)%allowed_args_shape.
  unfold validate_hashcat_args.
  rewrite !validate_loop_cons, String.eqb_refl.
  destruct (String.eqb (String "-" f +:+ String "=" value) first);
    [reflexivity|].
  unfold check_arg.
  rewrite (startswith_app "-" f (String "=" value)).
  rewrite arg_base_of_assignment by done.
  by rewrite bool_decide_true.
Qed.

Lemma validate_accepts_any_value_after_equals_witness :
  validate_hashcat_args ["/usr/bin/hashcat"; "-r=../../etc/shadow"] = Ok true.
Proof.
  apply (validate_accepts_any_value_after_equals "/usr/bin/hashcat" "-r"
           "../../etc/shadow").
  set_solver.
Defined.

(** ** The command of [run_hashcat] *)

Lemma validate_accepts_inv first rest :
  validate_loop first rest = Ok tt ->
  Forall (fun arg => arg = first \/ passes arg) rest.
Proof.
  induction rest as [|arg rest IH]; [by constructor|].
  rewrite validate_loop_cons.
  destruct (String.eqb_spec arg first) as [->|Hne].
  - intros H. constructor; [by left|by apply IH].
  - rewrite check_arg_cases. unfold passes.
    destruct (bad_flag arg) eqn:Hf; [discriminate|].
    destruct (bad_path arg) eqn:Hp; [discriminate|].
    intros H. constructor; [by right|by apply IH].
Qed.

(** The token [-w2] of the default command (line 329) is not in the
    allow-list, which holds [-w] only: the validator refuses a list in
    which it follows the executable. *)
Lemma validate_rejects_w2 first rest :
  first <> "-w2" ->
  validate_hashcat_args (first :: "-w2" :: rest)
  = Raise (Exn ValueError "Invalid argument: -w2").
Proof.
  intros Hne. unfold validate_hashcat_args.
  rewrite !validate_loop_cons, String.eqb_refl.
  destruct (String.eqb_spec "-w2" first) as [<-|_]; [done|].
  reflexivity.
Qed.

Lemma bind_Ok {A B} (a : A) (k : A -> result B) : (Ok a ≫= k) = k a.
Proof. reflexivity. Qed.

Lemma default_tokens_raise g os ht hf wl ruleset :
  default_command_tokens g os ht hf wl ruleset
  = Raise (Exn NameError "name 'os' is not defined").
Proof. reflexivity. Qed.

Lemma default_answer g os fs hash_type hashes wordlist ruleset custom_command
    hash_file :
  truthy custom_command = false \/ truthy hash_file = false ->
  run_hashcat g os fs hash_type hashes wordlist ruleset custom_command
    hash_file = (fs, BadRequest) \/
  run_hashcat g os fs hash_type hashes wordlist ruleset custom_command
    hash_file = (fs, ServerError (Exn NameError "name 'os' is not defined")).
Proof.
  intros Hwhich. unfold run_hashcat.
  destruct (negb (truthy hash_type)
            || negb (truthy hashes || truthy hash_file)
            || negb (truthy wordlist)); [by left|].
  right.
  destruct (truthy hash_file) eqn:Hfile; cbv beta iota zeta; [|done].
  destruct Hwhich as [-> | ?]; [|done].
  by rewrite bind_Ok, default_tokens_raise.
Qed.



Lemma substitute_all_head g os hash_file first rest cmd :
  substitute g os hash_file first = Ok first ->
  substitute_all g os hash_file (first :: rest) = Ok cmd ->
  exists rest', cmd = first :: rest'.
Proof.
  intros Hfirst.
  change (substitute_all g os hash_file (first :: rest))
    with (arg ← substitute g os hash_file first;
          rest ← substitute_all g os hash_file rest; Ok (arg :: rest)).
  rewrite Hfirst, bind_Ok.
  destruct (substitute_all g os hash_file rest) as [rest'|]; [|discriminate].
  rewrite bind_Ok. intros [= <-]. eauto.
Qed.

(** A command that [run_hashcat] hands to the spawn starts with the
    configured binary, whatever executable the custom command named, and
    every later token of it that differs from the binary path passes the
    checks of the validator. The configured path is supposed not to be
    one of the texts the handler replaces. *)
Theorem spawned_command_runs_configured_binary g os fs hash_type hashes
    wordlist ruleset custom_command hash_file fs' cmd :
  HASHCAT_PATH g <> "-w2" ->
  (forall hash_file,
     substitute g os hash_file (HASHCAT_PATH g) = Ok (HASHCAT_PATH g)) ->
  run_hashcat g os fs hash_type hashes wordlist ruleset custom_command
    hash_file = (fs', Spawn cmd) ->
  exists rest,
    cmd = HASHCAT_PATH g :: rest /\
    Forall (fun arg => arg = HASHCAT_PATH g \/ passes arg) rest.
Proof.
  intros Hne Hfirst Hrun.
  destruct (truthy custom_command) eqn:Hcustom.
  - unfold run_hashcat in Hrun. rewrite Hcustom in Hrun.
    destruct (negb (truthy hash_type)
              || negb (truthy hashes || truthy hash_file)
              || negb (truthy wordlist)); [discriminate|].
    destruct (truthy hash_file); cbv beta iota zeta in Hrun; [|discriminate].
    rewrite bind_Ok in Hrun. revert Hrun.
    generalize (default EmptyString hash_file) as hf.
    generalize (default EmptyString custom_command) as cc.
    intros cc hf. unfold custom_command_tokens.
    destruct (getitem (split_words cc) 0) as [w|];
      [rewrite bind_Ok|discriminate].
    destruct (negb (endswith "hashcat.exe" (str_lower w)));
      [discriminate|].
    destruct (substitute_all g os hf (HASHCAT_PATH g :: tail (split_words cc)))
      as [cmd1|] eqn:Hsub; [rewrite bind_Ok|discriminate].
    destruct (substitute_all_head g os hf _ _ _ (Hfirst hf) Hsub)
      as [rest ->].
    destruct (validate_hashcat_args (HASHCAT_PATH g :: rest)) as [b|] eqn:Hv;
      [|discriminate].
    rewrite !bind_Ok, Hv, bind_Ok.
    destruct (win32 os); [rewrite bind_Ok|discriminate].
    intros [= <- <-]. exists rest. split; [done|].
    unfold validate_hashcat_args in Hv.
    rewrite validate_loop_cons, String.eqb_refl in Hv.
    apply validate_accepts_inv.
    by destruct (validate_loop (HASHCAT_PATH g) rest) as [[]|].
  - by destruct (default_answer g os fs hash_type hashes wordlist
                   ruleset custom_command hash_file (or_introl Hcustom))
      as [H|H]; rewrite H in Hrun.
Qed.

Lemma spawned_command_runs_configured_binary_witness :
  exists rest,
    ["C:/hashcat/hashcat.exe"; "-m"; "0"; "C:/temp/crackme.txt";
     "C:/lists/rockyou.txt"]
    = HASHCAT_PATH example_globals :: rest /\
    Forall (fun arg => arg = HASHCAT_PATH example_globals \/ passes arg) rest.
Proof.
  eapply (spawned_command_runs_configured_binary example_globals
            example_ospath ∅ (Some "0") None (Some "rockyou.txt") None
            (Some "C:/tools/HASHCAT.EXE -m 0 crackme.txt C:/lists/rockyou.txt")
            (Some "C:/temp/crackme.txt")).
  - discriminate.
  - intros hash_file. reflexivity.
  - vm_compute. reflexivity.
Defined.

(** A custom command must name an executable whose name ends, in any
    letter case, in [hashcat.exe]: otherwise the request is answered
    with status 500 for an invalid executable; a custom command of white
    space only is answered with status 500 for the [IndexError] of its
    missing first word. The request names its hash file. *)
Theorem custom_command_needs_hashcat_exe g os fs hash_type hashes wordlist
    ruleset custom_command hash_file :
  truthy hash_type = true ->
  truthy wordlist = true ->
  truthy (Some custom_command) = true ->
  truthy hash_file = true ->
  let answer :=
    snd (run_hashcat g os fs hash_type hashes wordlist ruleset
           (Some custom_command) hash_file) in
  (split_words custom_command = [] ->
   answer = ServerError (Builtin IndexError)) /\
  (forall w ws,
     split_words custom_command = w :: ws ->
     endswith "hashcat.exe" (str_lower w) = false ->
     answer = ServerError (Exn ValueError "Invalid executable specified")).
Proof.
  intros Hht Hw Hcc Hfile answer. unfold answer, run_hashcat.
  rewrite Hht, Hfile, Hw, Hcc, orb_true_r. cbv beta iota zeta.
  change (negb true || negb true || negb true) with false.
  cbv beta iota zeta. rewrite bind_Ok. unfold custom_command_tokens.
  change (default EmptyString (Some custom_command)) with custom_command.
  split.
  - by intros ->.
  - intros w ws -> Hexe.
    change (getitem (w :: ws) 0) with (Ok w). by rewrite bind_Ok, Hexe.
Qed.

Lemma custom_command_needs_hashcat_exe_witness :
  snd (run_hashcat example_globals example_ospath ∅ (Some "0") None
         (Some "rockyou.txt") None (Some "cmd.exe /c calc")
         (Some "C:/temp/crackme.txt"))
  = ServerError (Exn ValueError "Invalid executable specified").
Proof.
  apply (proj2 (custom_command_needs_hashcat_exe example_globals
                  example_ospath ∅ (Some "0") None (Some "rockyou.txt") None
                  "cmd.exe /c calc" (Some "C:/temp/crackme.txt")
                  eq_refl eq_refl eq_refl eq_refl)
           "cmd.exe" ["/c"; "calc"]);
    reflexivity.
Defined.

(** ** The table of hash types *)

Lemma hash_types_line_cases hash_types line :
  hash_types_line hash_types line
  = if well_formed line then
      Ok (match hash_type_of line with
          | Some (m, e) => <[m := e]> hash_types
          | None => hash_types
          end)
    else Raise (Builtin ValueError).
Proof.
  unfold hash_types_line, well_formed, hash_type_of.
  destruct (PyStr.strip line) as [|c s] eqn:Hs; [done|].
  change (nonempty (String c s)) with true. cbv beta iota.
  change (negb true || ?b) with b.
  by destruct (PyStr.split "|" (String c s)) as [|a [|b [|d [|x l]]]].
Qed.

Lemma hash_types_loop_bad lines line : forall hash_types,
  line ∈ lines -> well_formed line = false ->
  exists e, hash_types_loop hash_types lines = Raise e.
Proof.
  induction lines as [|l lines IH]; intros hash_types Hin Hbad.
  - by apply elem_of_nil in Hin.
  - change (hash_types_loop hash_types (l :: lines))
      with (hash_types ← hash_types_line hash_types l;
            hash_types_loop hash_types lines).
    rewrite hash_types_line_cases.
    apply elem_of_cons in Hin as [<- | Hin].
    + rewrite Hbad. by eauto.
    + destruct (well_formed l); [|by eauto]. by apply IH.
Qed.

Lemma hash_types_loop_good lines : forall hash_types,
  Forall (fun line => well_formed line = true) lines ->
  exists loaded,
    hash_types_loop hash_types lines = Ok loaded /\
    forall mode_id,
      loaded !! mode_id
      = match last_hash_type mode_id lines with
        | Some e => Some e
        | None => hash_types !! mode_id
        end.
Proof.
  induction lines as [|l lines IH]; intros hash_types Hall.
  - by exists hash_types.
  - apply Forall_cons in Hall as [Hl Hall].
    change (hash_types_loop hash_types (l :: lines))
      with (hash_types ← hash_types_line hash_types l;
            hash_types_loop hash_types lines).
    rewrite hash_types_line_cases, Hl.
    destruct (IH (match hash_type_of l with
                  | Some (m, e) => <[m := e]> hash_types
                  | None => hash_types
                  end) Hall) as (loaded & Hloaded & Hlookup).
    exists loaded. split; [done|]. intros mode_id. rewrite Hlookup.
    unfold last_hash_type. simpl.
    destruct (hash_type_of l) as [[m e]|]; [|done].
    destruct (String.eqb_spec m mode_id) as [->|Hne].
    + rewrite last_cons, lookup_insert_eq. by destruct (last _).
    + by rewrite lookup_insert_ne.
Qed.

(** The table is all or nothing: when [hash_types.txt] cannot be opened,
    or one of its lines is not blank and does not split at [|] into
    exactly three parts, the whole table is the fallback one of three
    modes, whatever the other lines hold. *)
Theorem load_hash_types_falls_back_as_a_whole fs :
  (fs !! "hash_types.txt" = None \/
   exists content line,
     fs !! "hash_types.txt" = Some content /\
     line ∈ PyStr.keepends (PyStr.universal_newlines content) /\
     well_formed line = false) ->
  load_hash_types fs = fallback_hash_types.
Proof.
  unfold load_hash_types.
  intros [-> | (content & line & -> & Hin & Hbad)]; [done|].
  by destruct (hash_types_loop_bad _ line ∅ Hin Hbad) as [e ->].
Qed.

Lemma load_hash_types_falls_back_as_a_whole_witness :
  load_hash_types
    {[ "hash_types.txt" :=
         "0|MD5|Raw Hash" +:+ String PyStr.LF
           ("100|SHA1" +:+ String PyStr.LF
              ("1800|sha512crypt|Operating System" +:+ String PyStr.LF
                 EmptyString)) ]}
  = fallback_hash_types.
Proof.
  apply load_hash_types_falls_back_as_a_whole. right.
  exists ("0|MD5|Raw Hash" +:+ String PyStr.LF
            ("100|SHA1" +:+ String PyStr.LF
               ("1800|sha512crypt|Operating System" +:+ String PyStr.LF
                  EmptyString))),
    ("100|SHA1" +:+ String PyStr.LF EmptyString).
  split_and!.
  - reflexivity.
  - vm_compute. set_solver.
  - reflexivity.
Defined.

(** When every line of [hash_types.txt] is blank or splits into three
    parts, the table holds for each mode the name and category of the
    last line that names the mode, and no mode that no line names. *)
Theorem load_hash_types_last_line_wins fs content mode_id :
  fs !! "hash_types.txt" = Some content ->
  Forall (fun line => well_formed line = true)
    (PyStr.keepends (PyStr.universal_newlines content)) ->
  load_hash_types fs !! mode_id
  = last_hash_type mode_id (PyStr.keepends (PyStr.universal_newlines content)).
Proof.
  intros Hfs Hall. unfold load_hash_types. rewrite Hfs.
  destruct (hash_types_loop_good _ ∅ Hall) as (loaded & -> & Hlookup).
  rewrite Hlookup, lookup_empty. by destruct (last_hash_type _ _).
Qed.

Lemma load_hash_types_last_line_wins_witness :
  load_hash_types
    {[ "hash_types.txt" :=
         "0|MD5|Raw Hash" +:+ String PyStr.LF
           (String PyStr.LF
              ("0|MD5 (raw)|Hashes" +:+ String PyStr.LF EmptyString)) ]}
    !! "0"
  = Some (mkHashType "MD5 (raw)" "Hashes" "8743b52063cd84097a65d1633f5c74f5").
Proof.
  etrans.
  - apply (load_hash_types_last_line_wins _
             ("0|MD5|Raw Hash" +:+ String PyStr.LF
                (String PyStr.LF
                   ("0|MD5 (raw)|Hashes" +:+ String PyStr.LF EmptyString)))).
    + reflexivity.
    + vm_compute. repeat constructor.
  - vm_compute. reflexivity.
Defined.

Lemma fallback_examples mode_id e :
  fallback_hash_types !! mode_id = Some e ->
  example e = get_example_hash mode_id.
Proof.
  unfold fallback_hash_types. simpl.
  rewrite !lookup_insert_Some, lookup_empty.
  intros [[<- <-]|[_ [[<- <-]|[_ [[<- <-]|[_ ?]]]]]]; done.
Qed.

Lemma hash_types_loop_examples lines : forall hash_types loaded,
  (forall m e, hash_types !! m = Some e -> example e = get_example_hash m) ->
  hash_types_loop hash_types lines = Ok loaded ->
  forall m e, loaded !! m = Some e -> example e = get_example_hash m.
Proof.
  induction lines as [|l lines IH]; intros hash_types loaded Hinv.
  - by intros [= <-].
  - change (hash_types_loop hash_types (l :: lines))
      with (hash_types ← hash_types_line hash_types l;
            hash_types_loop hash_types lines).
    rewrite hash_types_line_cases.
    destruct (well_formed l); [|discriminate]. rewrite bind_Ok.
    apply IH. unfold hash_type_of.
    destruct (PyStr.split "|" (PyStr.strip l)) as [|a [|b [|d [|x t]]]];
      try done.
    intros m e. destruct (String.eqb_spec a m) as [->|Hne].
    + rewrite lookup_insert_eq. by intros [= <-].
    + rewrite lookup_insert_ne by done. apply Hinv.
Qed.

(** Whatever [hash_types.txt] holds, the example shown for a mode of the
    table is the one [get_example_hash] gives for the mode: the built-in
    example for the five modes it knows, the text that none is available
    for every other mode. *)
Theorem load_hash_types_examples_are_built_in fs mode_id e :
  load_hash_types fs !! mode_id = Some e ->
  example e = get_example_hash mode_id.
Proof.
  unfold load_hash_types.
  destruct (fs !! "hash_types.txt") as [content|];
    [|by apply fallback_examples].
  destruct (hash_types_loop ∅ _) as [loaded|err] eqn:Hloop;
    [|by apply fallback_examples].
  revert mode_id e. eapply hash_types_loop_examples; [|exact Hloop].
  intros m e. by rewrite lookup_empty.
Qed.

Lemma load_hash_types_examples_are_built_in_witness :
  example (mkHashType "Whirlpool" "Raw Hash" "Example hash not available")
  = get_example_hash "6100".
Proof.
  apply (load_hash_types_examples_are_built_in
           {[ "hash_types.txt" := "6100|Whirlpool|Raw Hash" ]} "6100").
  vm_compute. reflexivity.
Defined.

(** ** The validators of the configuration *)

Lemma missing_empty (v : gmap string string) :
  list_to_set (C := gset string) required_paths ∖ dom v = ∅ <->
  Forall (fun k => is_Some (v !! k)) required_paths.
Proof.
  rewrite Forall_forall. split.
  - intros Hempty k Hk. apply elem_of_dom.
    destruct (decide (k ∈ dom v)) as [|Hout]; [done|].
    assert (k ∈ list_to_set (C := gset string) required_paths ∖ dom v)
      as Hin by (apply elem_of_difference; split;
                   [by apply elem_of_list_to_set|done]).
    rewrite Hempty in Hin. by apply elem_of_empty in Hin.
  - intros Hall. apply set_eq. intros k.
    rewrite elem_of_difference, elem_of_list_to_set, elem_of_dom.
    split; [|by intros ?%elem_of_empty].
    intros [Hk Hnone]. destruct Hnone. by apply Hall.
Qed.

(** [validate_paths] and [get_path] agree: a [paths] dictionary is
    accepted, and returned as it is, exactly when [get_path] resolves
    each of the five required path types; it is refused with a
    [ValueError] exactly when [get_path] raises its [KeyError] for one of
    them. Keys beyond the five are let through. *)
Theorem validate_paths_guards_get_path host repr v :
  match validate_paths repr v with
  | Ok v' =>
      v' = v /\
      forall k, k ∈ required_paths ->
        exists p, v !! k = Some p /\
                  get_path host {| paths := v |} k = Ok (as_path host p)
  | Raise e =>
      class_of e = ValueError /\
      exists k, k ∈ required_paths /\
        get_path host {| paths := v |} k
        = Raise (Exn KeyError ("Unknown path type: " +:+ k))
  end.
Proof.
  unfold validate_paths. cbv zeta.
  destruct (bool_decide_reflect
              (list_to_set (C := gset string) required_paths ∖ dom v = ∅))
    as [Hempty|Hmissing].
  - split; [done|]. intros k Hk.
    apply missing_empty in Hempty. rewrite Forall_forall in Hempty.
    destruct (Hempty k Hk) as [p Hp]. exists p. split; [done|].
    unfold get_path. simpl. by rewrite Hp.
  - split; [done|].
    rewrite missing_empty in Hmissing.
    apply not_Forall_Exists in Hmissing; [|intros k; apply _].
    apply Exists_exists in Hmissing as (k & Hk & Hnone).
    unfold compose in Hnone. exists k. split; [done|].
    unfold get_path. simpl.
    destruct (v !! k) as [p|]; [|done]. destruct Hnone. by eexists.
Qed.

Lemma lower_char_idemp c : lower_char (lower_char c) = lower_char c.
Proof.
  destruct c as [[] [] [] [] [] [] [] []]; reflexivity.
Qed.

Lemma str_lower_idemp s : str_lower (str_lower s) = str_lower s.
Proof.
  induction s as [|c s IH]; [done|]. simpl. by rewrite lower_char_idemp, IH.
Qed.

(** [validate_theme] and [validate_language] bring a value to lower case:
    what they return is one of the valid values and is returned unchanged
    when validated again, and the lower-case form of a value is treated
    as the value is. *)
Theorem theme_and_language_are_normalised repr v :
  match validate_theme repr v with
  | Ok t =>
      t ∈ ["light"; "dark"; "system"] /\
      validate_theme repr t = Ok t /\
      validate_theme repr (str_lower v) = Ok t
  | Raise e =>
      class_of e = ValueError /\ validate_theme repr (str_lower v) = Raise e
  end /\
  match validate_language repr v with
  | Ok l =>
      l ∈ ["en"; "es"; "fr"; "de"] /\
      validate_language repr l = Ok l /\
      validate_language repr (str_lower v) = Ok l
  | Raise e =>
      class_of e = ValueError /\
      validate_language repr (str_lower v) = Raise e
  end.
Proof.
  split.
  - unfold validate_theme. cbv zeta. rewrite !str_lower_idemp.
    destruct (bool_decide_reflect
                (str_lower v ∈ ({[ "light"; "dark"; "system" ]} : gset string)))
      as [Hin|Hout]; [|split; reflexivity].
    rewrite !str_lower_idemp, bool_decide_true by done.
    split_and!; [|done..]. revert Hin.
    rewrite !elem_of_union, !elem_of_singleton, !elem_of_cons. tauto.
  - unfold validate_language. cbv zeta. rewrite !str_lower_idemp.
    destruct (bool_decide_reflect
                (str_lower v ∈ ({[ "en"; "es"; "fr"; "de" ]} : gset string)))
      as [Hin|Hout]; [|split; reflexivity].
    rewrite !str_lower_idemp, bool_decide_true by done.
    split_and!; [|done..]. revert Hin.
    rewrite !elem_of_union, !elem_of_singleton, !elem_of_cons. tauto.
Qed.
